(** * Host-side controller of the mobile wallet protocol

    A shallow embedding of
    [react-native/host/src/provider/MobileWalletProtocolProvider.tsx]:
    the request intake ([handleRequestUrl]), the handshake operations
    ([approveHandshake], [rejectHandshake]), the per-action operations
    ([approveAction], [rejectAction]) and the two queries on the active
    handshake ([fetchAppMetadata], [isAppVerified]).

    The provider keeps three pieces of mutable state: the module-level
    [prevRequestUUID] and [actionToResponseMap], and the React state
    [activeMessage].  They are fields of [State] below, next to the contents
    of the secure storage and a chronological log of the calls that reach
    outside the provider (event sink, delivery, storage, decryption,
    metadata and verification); [decodeRequest], [createSession] and the
    two mapping functions are used as functions and leave no entry.  Every
    operation is a function from a state to an outcome and a state; a
    JavaScript [throw] or rejected promise is the outcome [Threw].  One
    operation runs at a time, to its end. *)

From stdpp Require Import gmap strings list fin_maps.

Local Open Scope Z_scope.

(** ** Data model *)

(** [HandshakeAction] of [action/action.ts]: the fields the provider reads. *)
Module HandshakeAction.
Record t : Type := mk { id : Z; appId : string; callback : string }.
#[global] Instance eq_dec : EqDecision t.
Proof. solve_decision. Defined.
End HandshakeAction.

(** [RequestAction] of [action/action.ts]: [id] keys the response map and
    [optional] steers [rejectAction]; [method] stands for the body of the
    action, which the provider never inspects. *)
Module RequestAction.
Record t : Type := mk { id : Z; optional : bool; method : string }.
#[global] Instance eq_dec : EqDecision t.
Proof. solve_decision. Defined.
End RequestAction.

(** The elements of [RequestMessage.actions]: a union of the two action
    types. *)
Inductive Action : Type :=
  | Handshake (h : HandshakeAction.t)
  | Request (r : RequestAction.t).

#[global] Instance Action_eq_dec : EqDecision Action.
Proof. solve_decision. Defined.

Definition action_id (a : Action) : Z :=
  match a with
  | Handshake h => HandshakeAction.id h
  | Request r => RequestAction.id r
  end.

(** Modelled from the spec: [isHandshakeAction] of [action/action.ts] is not
    among the sources; the spec describes it as the discrimination of the
    union {Handshake, Request}, which is the constructor test here. *)
Definition isHandshakeAction (a : Action) : bool :=
  match a with
  | Handshake _ => true
  | Request _ => false
  end.

(** [RequestMessage] of [request/request.ts]. *)
Module RequestMessage.
Record t : Type := mk { uuid : string; callbackUrl : string; actions : list Action }.
#[global] Instance eq_dec : EqDecision t.
Proof. solve_decision. Defined.
End RequestMessage.

(** The content of a decoded request: the provider tests
    ['handshake' in decoded.content] and ['request' in decoded.content], so
    each key is present or absent on its own. *)
Module HandshakeContent.
Record t : Type := mk { appId : string; callback : string; appName : string }.
#[global] Instance eq_dec : EqDecision t.
Proof. solve_decision. Defined.
End HandshakeContent.

Module DecodedContent.
Record t : Type := mk { handshake : option HandshakeContent.t; request : option string }.
#[global] Instance eq_dec : EqDecision t.
Proof. solve_decision. Defined.
End DecodedContent.

(** What [decodeRequest] resolves to when it does not resolve to a falsy
    value. *)
Module DecodedRequest.
Record t : Type := mk { uuid : string; callbackUrl : string; content : DecodedContent.t }.
#[global] Instance eq_dec : EqDecision t.
Proof. solve_decision. Defined.
End DecodedRequest.

(** What [decryptRequest] resolves to; the provider reads
    [decrypted.content.request] only. *)
Module DecryptedRequest.
Record t : Type := mk { request : list RequestAction.t }.
End DecryptedRequest.

(** [Session] of [sessions/sessions.ts]. *)
Module Session.
Record t : Type :=
  mk { dappId : string; dappName : string; dappURL : string;
       createdAt : Z; sharedSecret : string }.
#[global] Instance eq_dec : EqDecision t.
Proof. solve_decision. Defined.
End Session.

(** [AppMetadata] of [utils/fetchClientAppMetadata.ts]. *)
Module AppMetadata.
Record t : Type := mk { appId : string; appName : string; iconUrl : string }.
End AppMetadata.

(** [ReturnValue] of [response/response.ts]: [{ result }] or [{ error }]. *)
Inductive ReturnValue : Type :=
  | result (value : string)
  | error (value : string).

#[global] Instance ReturnValue_eq_dec : EqDecision ReturnValue.
Proof. solve_decision. Defined.

(** The second argument of [sendError]: the provider passes the decoded
    request from the intake and the active message from [rejectHandshake]. *)
Inductive ErrorTarget : Type :=
  | ToDecoded (d : DecodedRequest.t)
  | ToMessage (m : RequestMessage.t).

(** ** Calls to the collaborators *)

Inductive Effect : Type :=
  | EmitEvent (name : string) (params : list (string * string))
  | SendError (description : string) (target : ErrorTarget)
  | SendResponse (responses : gmap Z ReturnValue) (message : RequestMessage.t)
  | GetSession (d : DecodedRequest.t)
  | GetSessions
  | DeleteSessions (sessions : list Session.t)
  | AddSession (s : Session.t)
  | DecryptRequest (url : string) (s : Session.t)
  | FetchClientAppMetadata (appId appUrl : string)
  | IsClientAppVerified (appId callbackUrl : string).

(** The calls that deliver something to the client. *)
Definition is_delivery (e : Effect) : bool :=
  match e with SendError _ _ | SendResponse _ _ => true | _ => false end.

(** ** State *)

Record State : Type := mkState {
  prevRequestUUID : option string;
  actionToResponseMap : gmap Z ReturnValue;
  activeMessage : option RequestMessage.t;
  secureStorage : list Session.t;
  effects : list Effect
}.

(** The state when the module is loaded and the provider first rendered,
    over a storage holding [sessions]. *)
Definition initial (sessions : list Session.t) : State :=
  mkState None ∅ None sessions [].

(** ** Outcomes and the monad of the operations *)

Inductive Outcome (A : Type) : Type :=
  | Returned (a : A)
  | Threw (message : string).
Arguments Returned {A} a.
Arguments Threw {A} message.

Definition M (A : Type) : Type := State → Outcome A * State.

#[global] Instance M_ret : MRet M := λ A a s, (Returned a, s).
#[global] Instance M_bind : MBind M := λ A B k m s,
  match m s with
  | (Returned a, s') => k a s'
  | (Threw e, s') => (Threw e, s')
  end.

Definition throw {A : Type} (message : string) : M A := λ s, (Threw message, s).
Definition read {A : Type} (f : State → A) : M A := λ s, (Returned (f s), s).
Definition modify (f : State → State) : M unit := λ s, (Returned (), f s).
Definition call (e : Effect) : M unit :=
  modify (λ s, mkState (prevRequestUUID s) (actionToResponseMap s) (activeMessage s)
                       (secureStorage s) (effects s ++ [e])).

Definition outcome {A : Type} (r : Outcome A * State) : Outcome A := r.1.
Definition after {A : Type} (r : Outcome A * State) : State := r.2.

(** [emitEvent], [sendError] and [sendResponse] only reach the outside.  The
    provider always passes the module's [actionToResponseMap] to
    [sendResponse]; the call is logged with the map as it is at that time. *)
Definition emitEvent (name : string) (params : list (string * string)) : M unit :=
  call (EmitEvent name params).
Definition sendError (description : string) (target : ErrorTarget) : M unit :=
  call (SendError description target).
Definition sendResponse (message : RequestMessage.t) : M unit :=
  responses ← read actionToResponseMap;
  call (SendResponse responses message).

(** ** Secure storage *)

(** Modelled from the spec: [getSessions(secureStorage)] of
    [sessions/sessions.ts] is not among the sources.  The spec gives the
    store the operations list-all, delete and add, and says that it enforces
    no uniqueness of its own; the store is the list of the sessions added and
    not deleted, and [getSessions] lists it. *)
Definition getSessions : M (list Session.t) :=
  call GetSessions;; read secureStorage.

(** Modelled from the spec: [deleteSessions(secureStorage, sessions)] is not
    among the sources; the spec's delete removes the given sessions from the
    store. *)
Definition deleteSessions (sessions : list Session.t) : M unit :=
  call (DeleteSessions sessions);;
  modify (λ s, mkState (prevRequestUUID s) (actionToResponseMap s) (activeMessage s)
                       (filter (λ x, x ∉ sessions) (secureStorage s)) (effects s)).

(** Modelled from the spec: [addSession(secureStorage, session)] is not
    among the sources; the spec's add puts the session in the store, next to
    whatever the store holds. *)
Definition addSession (session : Session.t) : M unit :=
  call (AddSession session);;
  modify (λ s, mkState (prevRequestUUID s) (actionToResponseMap s) (activeMessage s)
                       (secureStorage s ++ [session]) (effects s)).

(** ** The provider *)

(** [updateActiveMessage]: clears the response map, then sets the message. *)
Definition updateActiveMessage (message : option RequestMessage.t) : M unit :=
  modify (λ s, mkState (prevRequestUUID s) ∅ (activeMessage s) (secureStorage s) (effects s));;
  modify (λ s, mkState (prevRequestUUID s) (actionToResponseMap s) message
                       (secureStorage s) (effects s)).

(** [actionToResponseMap.set(id, value)]. *)
Definition setResponse (id : Z) (value : ReturnValue) : M unit :=
  modify (λ s, mkState (prevRequestUUID s) (<[id := value]> (actionToResponseMap s))
                       (activeMessage s) (secureStorage s) (effects s)).

Definition setPrevRequestUUID (uuid : string) : M unit :=
  modify (λ s, mkState (Some uuid) (actionToResponseMap s) (activeMessage s)
                       (secureStorage s) (effects s)).

(** [actions.find(isHandshakeAction)], with the narrowing of the type
    guard. *)
Fixpoint findHandshake (actions : list Action) : option HandshakeAction.t :=
  match actions with
  | [] => None
  | Handshake h :: _ => Some h
  | Request _ :: rest => findHandshake rest
  end.

Section Provider.

(** The collaborators whose code is not part of the provider.  Each is
    taken as it is called: a function of its arguments. *)

(** [decodeRequest(url)]; [None] is a falsy result. *)
Variable decodeRequest : string → option DecodedRequest.t.
(** [decryptRequest(url, session)]; [None] is a rejected promise. *)
Variable decryptRequest : string → Session.t → option DecryptedRequest.t.
Variable mapHandshakeToRequest : HandshakeContent.t → DecodedRequest.t → RequestMessage.t.
Variable mapDecryptedContentToRequest :
  list RequestAction.t → DecodedRequest.t → RequestMessage.t.
(** [getSession(secureStorage, decoded)], as a function of the stored
    sessions. *)
Variable lookupSession : list Session.t → DecodedRequest.t → option Session.t.
(** [isSessionValid(session, sessionExpiryDays)], at the time of the call. *)
Variable isSessionValid : Session.t → Z → bool.
Variable createSession : AppMetadata.t → HandshakeAction.t → RequestMessage.t → Session.t.
Variable shouldRespondToClient : gmap Z ReturnValue → RequestMessage.t → bool.
Variable fetchClientAppMetadata : string → string → option AppMetadata.t.
Variable isClientAppVerified : string → string → bool.

(** The property [sessionExpiryDays] of the provider. *)
Variable sessionExpiryDays : Z.

Definition getSession (decoded : DecodedRequest.t) : M (option Session.t) :=
  call (GetSession decoded);;
  sessions ← read secureStorage;
  mret (lookupSession sessions decoded).

Definition handleRequestUrl (url : string) : M bool :=
  match decodeRequest url with
  | None => mret false
  | Some decoded =>
    prev ← read prevRequestUUID;
    if decide (prev = Some (DecodedRequest.uuid decoded)) then mret false
    else
      setPrevRequestUUID (DecodedRequest.uuid decoded);;
      match DecodedContent.handshake (DecodedRequest.content decoded) with
      | Some handshake =>
        let message := mapHandshakeToRequest handshake decoded in
        updateActiveMessage (Some message);;
        mret true
      | None =>
        match DecodedContent.request (DecodedRequest.content decoded) with
        | Some _ =>
          session ← getSession decoded;
          match session with
          | None =>
            emitEvent "session_not_found"
                      [("callbackUrl", DecodedRequest.callbackUrl decoded)];;
            sendError "Session not found. Please initiate a handshake request prior to making a request"
                      (ToDecoded decoded);;
            mret false
          | Some session =>
            if negb (isSessionValid session sessionExpiryDays) then
              emitEvent "session_expired"
                        [("appName", Session.dappName session);
                         ("appId", Session.dappId session);
                         ("callbackUrl", Session.dappURL session)];;
              deleteSessions [session];;
              sendError "Session expired. Please initiate another handshake request to connect."
                        (ToDecoded decoded);;
              mret false
            else
              call (DecryptRequest url session);;
              match decryptRequest url session with
              | None => throw "decryptRequest"
              | Some decrypted =>
                let message :=
                  mapDecryptedContentToRequest (DecryptedRequest.request decrypted) decoded in
                updateActiveMessage (Some message);;
                mret true
              end
          end
        | None => mret false
        end
      end
  end.

Definition fetchAppMetadata : M (option AppMetadata.t) :=
  activeMessage ← read activeMessage;
  match activeMessage ≫= (λ m, findHandshake (RequestMessage.actions m)) with
  | None => throw "No handshake action"
  | Some handshake =>
    call (FetchClientAppMetadata (HandshakeAction.appId handshake)
                                 (HandshakeAction.callback handshake));;
    mret (fetchClientAppMetadata (HandshakeAction.appId handshake)
                                 (HandshakeAction.callback handshake))
  end.

Definition isAppVerified : M bool :=
  activeMessage ← read activeMessage;
  match activeMessage ≫= (λ m, findHandshake (RequestMessage.actions m)) with
  | None => throw "No handshake action"
  | Some handshake =>
    call (IsClientAppVerified (HandshakeAction.appId handshake)
                              (HandshakeAction.callback handshake));;
    mret (isClientAppVerified (HandshakeAction.appId handshake)
                              (HandshakeAction.callback handshake))
  end.

Definition approveHandshake (action : HandshakeAction.t) (metadata : AppMetadata.t) : M unit :=
  activeMessage ← read activeMessage;
  match activeMessage with
  | None => throw "No message found"
  | Some activeMessage =>
    let session := createSession metadata action activeMessage in
    sessions ← getSessions;
    let existingSession :=
      List.find (λ value, bool_decide (Session.dappId value = AppMetadata.appId metadata))
                sessions in
    match existingSession with
    | Some existingSession => deleteSessions [existingSession]
    | None => mret ()
    end;;
    addSession session;;
    responses ← read actionToResponseMap;
    if shouldRespondToClient responses activeMessage then
      sendResponse activeMessage;;
      updateActiveMessage None
    else mret ()
  end.

Definition rejectHandshake (description : string) : M unit :=
  activeMessage ← read activeMessage;
  match activeMessage with
  | None => throw "No message found"
  | Some activeMessage =>
    sendError description (ToMessage activeMessage);;
    updateActiveMessage None
  end.

Definition approveAction (action : RequestAction.t) (value : string) : M unit :=
  activeMessage ← read activeMessage;
  match activeMessage with
  | None => throw "No message found"
  | Some activeMessage =>
    setResponse (RequestAction.id action) (result value);;
    responses ← read actionToResponseMap;
    if shouldRespondToClient responses activeMessage then
      sendResponse activeMessage;;
      updateActiveMessage None
    else mret ()
  end.

Definition rejectAction (action : RequestAction.t) (value : string) : M unit :=
  activeMessage ← read activeMessage;
  match activeMessage with
  | None => throw "No message found"
  | Some activeMessage =>
    setResponse (RequestAction.id action) (error value);;
    if RequestAction.optional action then
      responses ← read actionToResponseMap;
      if shouldRespondToClient responses activeMessage then
        sendResponse activeMessage;;
        updateActiveMessage None
      else mret ()
    else
      sendResponse activeMessage
  end.

(** *** The provider as a transition system *)

(** The operations of the context value, as the application calls them. *)
Inductive Call : Type :=
  | HandleRequestUrl (url : string)
  | FetchAppMetadata
  | IsAppVerified
  | ApproveHandshake (action : HandshakeAction.t) (metadata : AppMetadata.t)
  | RejectHandshake (description : string)
  | ApproveAction (action : RequestAction.t) (value : string)
  | RejectAction (action : RequestAction.t) (value : string).

(** The state a call leaves behind, whether it returns or throws. *)
Definition perform (c : Call) (st : State) : State :=
  match c with
  | HandleRequestUrl url => after (handleRequestUrl url st)
  | FetchAppMetadata => after (fetchAppMetadata st)
  | IsAppVerified => after (isAppVerified st)
  | ApproveHandshake action metadata => after (approveHandshake action metadata st)
  | RejectHandshake description => after (rejectHandshake description st)
  | ApproveAction action value => after (approveAction action value st)
  | RejectAction action value => after (rejectAction action value st)
  end.

(** The calls of a list, first to last. *)
Definition perform_all (calls : list Call) (st : State) : State :=
  foldl (λ s c, perform c s) st calls.

(** [approveAction] and [rejectAction] are given an action of the message
    that is active when they are called. *)
Definition addressed (c : Call) (st : State) : Prop :=
  match c with
  | ApproveAction action _ | RejectAction action _ =>
    ∀ m, activeMessage st = Some m → Request action ∈ RequestMessage.actions m
  | _ => True
  end.

(** The states the provider reaches from its first render when every
    approval and rejection of an action is addressed to the active
    message. *)
Inductive reachable (sessions : list Session.t) : State → Prop :=
  | reachable_initial : reachable sessions (initial sessions)
  | reachable_perform st c :
      reachable sessions st → addressed c st → reachable sessions (perform c st).

End Provider.

(** The keys of the response map are ids of actions of the active message;
    without an active message the map is empty. *)
Definition scoped (st : State) : Prop :=
  match activeMessage st with
  | None => actionToResponseMap st = ∅
  | Some m =>
    ∀ id, is_Some (actionToResponseMap st !! id) →
          ∃ a, a ∈ RequestMessage.actions m ∧ action_id a = id
  end.

(** The call that takes a request in; every other call acts on the active
    message. *)
Definition is_intake (c : Call) : bool :=
  match c with
  | HandleRequestUrl _ => true
  | _ => false
  end.

(** ** Completeness of the response map *)

(** Modelled from the spec: [shouldRespondToClient] of [response/response.ts]
    is not among the sources.  The spec's [isComplete] holds exactly when
    every action of the message has an entry in the response map, whatever
    the entry is. *)
Definition isComplete (responses : gmap Z ReturnValue) (message : RequestMessage.t) : bool :=
  forallb (λ a, bool_decide (is_Some (responses !! action_id a)))
          (RequestMessage.actions message).

(** ** A wallet and a client application *)

(** Collaborators of a small installation, on which the statements below are
    exercised: one client application, a handshake link and two request
    links. *)
Module Scenario.

Definition day : Z := 86400000.
(** The time of the calls, in milliseconds. *)
Definition now : Z := 10 * day.
Definition sessionExpiryDays : Z := 7.

Definition callbackUrl : string := "https://app.example/callback".

Definition handshakeUrl : string := "mwp://handshake".
Definition requestUrl : string := "mwp://request".
Definition secondRequestUrl : string := "mwp://second-request".

Definition handshake : HandshakeContent.t :=
  HandshakeContent.mk "app.example" callbackUrl "Example".

Definition decodedHandshake : DecodedRequest.t :=
  DecodedRequest.mk "uuid-handshake" callbackUrl (DecodedContent.mk (Some handshake) None).
Definition decodedRequest : DecodedRequest.t :=
  DecodedRequest.mk "uuid-request" callbackUrl (DecodedContent.mk None (Some "ciphertext")).
Definition decodedSecondRequest : DecodedRequest.t :=
  DecodedRequest.mk "uuid-second-request" callbackUrl
                    (DecodedContent.mk None (Some "ciphertext")).

Definition decodeRequest (url : string) : option DecodedRequest.t :=
  if decide (url = handshakeUrl) then Some decodedHandshake
  else if decide (url = requestUrl) then Some decodedRequest
  else if decide (url = secondRequestUrl) then Some decodedSecondRequest
  else None.

(** The request link carries a mandatory action [A] and an optional action
    [B]; the second request link carries one action [C]. *)
Definition A : RequestAction.t := RequestAction.mk 1 false "eth_requestAccounts".
Definition B : RequestAction.t := RequestAction.mk 2 true "wallet_switchEthereumChain".
Definition C : RequestAction.t := RequestAction.mk 7 false "personal_sign".

Definition decryptRequest (url : string) (session : Session.t) : option DecryptedRequest.t :=
  if decide (url = requestUrl) then Some (DecryptedRequest.mk [A; B])
  else if decide (url = secondRequestUrl) then Some (DecryptedRequest.mk [C])
  else None.

Definition handshakeAction : HandshakeAction.t :=
  HandshakeAction.mk 0 "app.example" callbackUrl.

Definition mapHandshakeToRequest (h : HandshakeContent.t) (d : DecodedRequest.t)
  : RequestMessage.t :=
  RequestMessage.mk (DecodedRequest.uuid d) (DecodedRequest.callbackUrl d)
                    [Handshake (HandshakeAction.mk 0 (HandshakeContent.appId h)
                                                   (HandshakeContent.callback h))].

Definition mapDecryptedContentToRequest (actions : list RequestAction.t)
           (d : DecodedRequest.t) : RequestMessage.t :=
  RequestMessage.mk (DecodedRequest.uuid d) (DecodedRequest.callbackUrl d)
                    (Request <$> actions).

Definition lookupSession (sessions : list Session.t) (d : DecodedRequest.t)
  : option Session.t :=
  List.find (λ s, bool_decide (Session.dappURL s = DecodedRequest.callbackUrl d)) sessions.

Definition isSessionValid (s : Session.t) (days : Z) : bool :=
  bool_decide (now - Session.createdAt s ≤ days * day).

Definition createSession (metadata : AppMetadata.t) (action : HandshakeAction.t)
           (message : RequestMessage.t) : Session.t :=
  Session.mk (AppMetadata.appId metadata) (AppMetadata.appName metadata)
             (HandshakeAction.callback action) now "shared-secret".

Definition metadata : AppMetadata.t :=
  AppMetadata.mk "app.example" "Example" "https://app.example/icon.png".

Definition fetchClientAppMetadata (appId appUrl : string) : option AppMetadata.t :=
  Some metadata.
Definition isClientAppVerified (appId callbackUrl : string) : bool := true.

(** A session of the application from nine days ago, and one from today. *)
Definition oldSession : Session.t :=
  Session.mk "app.example" "Example" callbackUrl day "old-secret".
Definition freshSession : Session.t :=
  Session.mk "app.example" "Example" callbackUrl now "shared-secret".

Definition handshakeMessage : RequestMessage.t :=
  mapHandshakeToRequest handshake decodedHandshake.
Definition requestMessage : RequestMessage.t :=
  mapDecryptedContentToRequest [A; B] decodedRequest.

(** The provider over these collaborators, completeness being the
    spec's. *)
Definition perform : Call → State → State :=
  perform decodeRequest decryptRequest mapHandshakeToRequest mapDecryptedContentToRequest
          lookupSession isSessionValid createSession isComplete
          fetchClientAppMetadata isClientAppVerified sessionExpiryDays.
Definition perform_all : list Call → State → State :=
  perform_all decodeRequest decryptRequest mapHandshakeToRequest mapDecryptedContentToRequest
              lookupSession isSessionValid createSession isComplete
              fetchClientAppMetadata isClientAppVerified sessionExpiryDays.
Definition handleRequestUrl : string → M bool :=
  handleRequestUrl decodeRequest decryptRequest mapHandshakeToRequest
                   mapDecryptedContentToRequest lookupSession isSessionValid
                   sessionExpiryDays.
Definition approveHandshake : HandshakeAction.t → AppMetadata.t → M unit :=
  approveHandshake createSession isComplete.
Definition approveAction : RequestAction.t → string → M unit := approveAction isComplete.
Definition rejectAction : RequestAction.t → string → M unit := rejectAction isComplete.

(** The state with [message] active and nothing recorded. *)
Definition awaiting (message : RequestMessage.t) (sessions : list Session.t) : State :=
  mkState (Some (RequestMessage.uuid message)) ∅ (Some message) sessions [].

End Scenario.

(** ** Proof support *)

Ltac run :=
  unfold handleRequestUrl, fetchAppMetadata, isAppVerified, approveHandshake,
         rejectHandshake, approveAction, rejectAction, getSession, getSessions,
         deleteSessions, addSession, sendResponse, sendError, emitEvent,
         updateActiveMessage, setResponse, setPrevRequestUUID, call, modify, read, throw,
         outcome, after, mbind, M_bind, mret, M_ret in *;
  cbn [fst snd prevRequestUUID actionToResponseMap activeMessage secureStorage effects] in *.

(** ** Properties of the provider *)

Section Facts.
Variable decodeRequest : string → option DecodedRequest.t.
Variable decryptRequest : string → Session.t → option DecryptedRequest.t.
Variable mapHandshakeToRequest : HandshakeContent.t → DecodedRequest.t → RequestMessage.t.
Variable mapDecryptedContentToRequest :
  list RequestAction.t → DecodedRequest.t → RequestMessage.t.
Variable lookupSession : list Session.t → DecodedRequest.t → option Session.t.
Variable isSessionValid : Session.t → Z → bool.
Variable createSession : AppMetadata.t → HandshakeAction.t → RequestMessage.t → Session.t.
Variable shouldRespondToClient : gmap Z ReturnValue → RequestMessage.t → bool.
Variable fetchClientAppMetadata : string → string → option AppMetadata.t.
Variable isClientAppVerified : string → string → bool.
Variable sessionExpiryDays : Z.

#[local] Abbreviation handleRequestUrl :=
  (handleRequestUrl decodeRequest decryptRequest mapHandshakeToRequest
                    mapDecryptedContentToRequest lookupSession isSessionValid
                    sessionExpiryDays).
#[local] Abbreviation approveHandshake := (approveHandshake createSession shouldRespondToClient).
#[local] Abbreviation approveAction := (approveAction shouldRespondToClient).
#[local] Abbreviation rejectAction := (rejectAction shouldRespondToClient).
#[local] Abbreviation fetchAppMetadata := (fetchAppMetadata fetchClientAppMetadata).
#[local] Abbreviation isAppVerified := (isAppVerified isClientAppVerified).
#[local] Abbreviation perform :=
  (perform decodeRequest decryptRequest mapHandshakeToRequest mapDecryptedContentToRequest
           lookupSession isSessionValid createSession shouldRespondToClient
           fetchClientAppMetadata isClientAppVerified sessionExpiryDays).
#[local] Abbreviation reachable :=
  (reachable decodeRequest decryptRequest mapHandshakeToRequest mapDecryptedContentToRequest
             lookupSession isSessionValid createSession shouldRespondToClient
             fetchClientAppMetadata isClientAppVerified sessionExpiryDays).

(** *** The intake *)

(** Once a request is decoded, the marker holds its uuid when the intake
    is over, on every path. *)
Lemma handleRequestUrl_marker st url decoded :
  decodeRequest url = Some decoded →
  prevRequestUUID (after (handleRequestUrl url st)) = Some (DecodedRequest.uuid decoded).
Proof.
  intros Hd. run. rewrite Hd.
  destruct (decide _) as [Heq|_]; [done|].
  destruct (DecodedContent.handshake _); [done|].
  destruct (DecodedContent.request _); [|done].
  destruct (lookupSession _ _) as [found|]; [|done].
  destruct (isSessionValid _ _); cbn; [|done].
  destruct (decryptRequest _ _); done.
Qed.

(** A request whose uuid is the marker is dropped at once. *)
Lemma handleRequestUrl_duplicate st url decoded :
  decodeRequest url = Some decoded →
  prevRequestUUID st = Some (DecodedRequest.uuid decoded) →
  handleRequestUrl url st = (Returned false, st).
Proof.
  intros Hd Hp. run. rewrite Hd.
  destruct (decide _) as [|Hne]; [done|]. by destruct Hne.
Qed.

(** The intake of an action request that has no session. *)
Lemma handleRequestUrl_no_session st url decoded :
  decodeRequest url = Some decoded →
  prevRequestUUID st ≠ Some (DecodedRequest.uuid decoded) →
  DecodedContent.handshake (DecodedRequest.content decoded) = None →
  is_Some (DecodedContent.request (DecodedRequest.content decoded)) →
  lookupSession (secureStorage st) decoded = None →
  handleRequestUrl url st =
    (Returned false,
     mkState (Some (DecodedRequest.uuid decoded)) (actionToResponseMap st)
             (activeMessage st) (secureStorage st)
             (((effects st ++ [GetSession decoded])
               ++ [EmitEvent "session_not_found"
                             [("callbackUrl", DecodedRequest.callbackUrl decoded)]])
              ++ [SendError "Session not found. Please initiate a handshake request prior to making a request"
                            (ToDecoded decoded)])).
Proof.
  intros Hd Hp Hh [payload Hr] Hs. run. rewrite Hd.
  destruct (decide _); [done|]. rewrite Hh, Hr. cbn. rewrite Hs. done.
Qed.

(** The intake of an action request whose session has expired. *)
Lemma handleRequestUrl_expired st url decoded session :
  decodeRequest url = Some decoded →
  prevRequestUUID st ≠ Some (DecodedRequest.uuid decoded) →
  DecodedContent.handshake (DecodedRequest.content decoded) = None →
  is_Some (DecodedContent.request (DecodedRequest.content decoded)) →
  lookupSession (secureStorage st) decoded = Some session →
  isSessionValid session sessionExpiryDays = false →
  handleRequestUrl url st =
    (Returned false,
     mkState (Some (DecodedRequest.uuid decoded)) (actionToResponseMap st)
             (activeMessage st) (filter (λ x, x ∉ [session]) (secureStorage st))
             ((((effects st ++ [GetSession decoded])
                ++ [EmitEvent "session_expired"
                              [("appName", Session.dappName session);
                               ("appId", Session.dappId session);
                               ("callbackUrl", Session.dappURL session)]])
               ++ [DeleteSessions [session]])
              ++ [SendError "Session expired. Please initiate another handshake request to connect."
                            (ToDecoded decoded)])).
Proof.
  intros Hd Hp Hh [payload Hr] Hs Hv. run. rewrite Hd.
  destruct (decide _); [done|]. rewrite Hh, Hr. cbn. rewrite Hs, Hv. done.
Qed.

(** C2: when [handleRequestUrl] is called twice in a row with requests
    that decode to the same uuid, the second call returns [false] and
    leaves the whole state as the first call left it: the active message,
    the response map, the storage and the log of events, responses and
    storage calls are unchanged. *)
Theorem handleRequestUrl_twice st url url' decoded decoded' :
  decodeRequest url = Some decoded →
  decodeRequest url' = Some decoded' →
  DecodedRequest.uuid decoded' = DecodedRequest.uuid decoded →
  let st1 := after (handleRequestUrl url st) in
  handleRequestUrl url' st1 = (Returned false, st1).
Proof.
  intros Hd Hd' Hu st1.
  apply (handleRequestUrl_duplicate _ _ decoded'); [done|].
  rewrite Hu. by apply handleRequestUrl_marker.
Qed.

(** C5: an action request that is not a repetition of the previous
    request and has no session in the store makes [handleRequestUrl]
    look the session up, emit the event [session_not_found], send one
    error to the decoded request (its callback) and return [false]; the
    active message, the response map and the storage stay as they were. *)
Theorem handleRequestUrl_session_not_found st url decoded :
  decodeRequest url = Some decoded →
  prevRequestUUID st ≠ Some (DecodedRequest.uuid decoded) →
  DecodedContent.handshake (DecodedRequest.content decoded) = None →
  is_Some (DecodedContent.request (DecodedRequest.content decoded)) →
  lookupSession (secureStorage st) decoded = None →
  let r := handleRequestUrl url st in
  outcome r = Returned false ∧
  effects (after r) =
    effects st ++
      [GetSession decoded;
       EmitEvent "session_not_found" [("callbackUrl", DecodedRequest.callbackUrl decoded)];
       SendError "Session not found. Please initiate a handshake request prior to making a request"
                 (ToDecoded decoded)] ∧
  activeMessage (after r) = activeMessage st ∧
  actionToResponseMap (after r) = actionToResponseMap st ∧
  secureStorage (after r) = secureStorage st.
Proof.
  intros Hd Hp Hh Hr Hs r. subst r.
  rewrite (handleRequestUrl_no_session _ _ _ Hd Hp Hh Hr Hs).
  unfold outcome, after. cbn. by rewrite <- !app_assoc.
Qed.

(** C4: an action request that is not a repetition of the previous
    request, whose session is found and fails [isSessionValid] against
    [sessionExpiryDays], makes [handleRequestUrl] emit exactly one event,
    [session_expired] with the session's name, id and URL, delete exactly
    that session from the store, send exactly one error, and return
    [false]; [decryptRequest] is not called and no message becomes
    active. *)
Theorem handleRequestUrl_session_expired st url decoded session :
  decodeRequest url = Some decoded →
  prevRequestUUID st ≠ Some (DecodedRequest.uuid decoded) →
  DecodedContent.handshake (DecodedRequest.content decoded) = None →
  is_Some (DecodedContent.request (DecodedRequest.content decoded)) →
  lookupSession (secureStorage st) decoded = Some session →
  isSessionValid session sessionExpiryDays = false →
  let r := handleRequestUrl url st in
  outcome r = Returned false ∧
  effects (after r) =
    effects st ++
      [GetSession decoded;
       EmitEvent "session_expired" [("appName", Session.dappName session);
                                    ("appId", Session.dappId session);
                                    ("callbackUrl", Session.dappURL session)];
       DeleteSessions [session];
       SendError "Session expired. Please initiate another handshake request to connect."
                 (ToDecoded decoded)] ∧
  (∀ u s, DecryptRequest u s ∈ effects (after r) → DecryptRequest u s ∈ effects st) ∧
  secureStorage (after r) = filter (λ x, x ∉ [session]) (secureStorage st) ∧
  (session ∉ secureStorage (after r)) ∧
  activeMessage (after r) = activeMessage st ∧
  actionToResponseMap (after r) = actionToResponseMap st.
Proof.
  intros Hd Hp Hh Hr Hs Hv r. subst r.
  rewrite (handleRequestUrl_expired _ _ _ _ Hd Hp Hh Hr Hs Hv).
  unfold outcome, after. cbn. rewrite <- !app_assoc. cbn.
  split_and!; try done.
  - intros u s Hin. apply elem_of_app in Hin as [Hin|Hin]; [done|].
    repeat (apply elem_of_cons in Hin as [Hin|Hin]; [discriminate|]).
    by apply elem_of_nil in Hin.
  - rewrite list_elem_of_filter. intros [Hn _]. apply Hn.
    by apply list_elem_of_singleton.
Qed.

(** *** Calls without an active message *)

(** [findHandshake] is [find] with [isHandshakeAction], narrowed. *)
Lemma find_isHandshakeAction (actions : list Action) :
  List.find isHandshakeAction actions = Handshake <$> findHandshake actions.
Proof.
  induction actions as [|[h|r] rest IH]; [done|done|]. cbn. exact IH.
Qed.

(** C9: without an active message, [approveHandshake], [rejectHandshake],
    [approveAction] and [rejectAction] throw "No message found"; without
    an active message that has a handshake action, [fetchAppMetadata] and
    [isAppVerified] throw "No handshake action".  In each case the state is
    the one before the call: nothing is recorded, sent, stored or read
    from the store. *)
Theorem invalid_state_is_signalled st :
  (activeMessage st = None →
   (∀ action metadata,
      approveHandshake action metadata st = (Threw "No message found", st)) ∧
   (∀ description, rejectHandshake description st = (Threw "No message found", st)) ∧
   (∀ action value, approveAction action value st = (Threw "No message found", st)) ∧
   (∀ action value, rejectAction action value st = (Threw "No message found", st))) ∧
  (activeMessage st ≫= (λ m, findHandshake (RequestMessage.actions m)) = None →
   fetchAppMetadata st = (Threw "No handshake action", st) ∧
   isAppVerified st = (Threw "No handshake action", st)).
Proof.
  split.
  - intros Hn. run. rewrite Hn. done.
  - intros Hn. run. rewrite Hn. done.
Qed.

(** *** Approvals and rejections *)

(** [approveAction] on an active message, in one equation. *)
Lemma approveAction_run st m action value :
  activeMessage st = Some m →
  let recorded := <[RequestAction.id action := result value]> (actionToResponseMap st) in
  approveAction action value st =
    (Returned (),
     if shouldRespondToClient recorded m
     then mkState (prevRequestUUID st) ∅ None (secureStorage st)
                  (effects st ++ [SendResponse recorded m])
     else mkState (prevRequestUUID st) recorded (Some m) (secureStorage st) (effects st)).
Proof.
  destruct st as [prev responses active stored calls]. cbn. intros ->.
  run. cbn. by destruct (shouldRespondToClient _ _).
Qed.

(** [rejectAction] on an active message, in one equation. *)
Lemma rejectAction_run st m action value :
  activeMessage st = Some m →
  let recorded := <[RequestAction.id action := error value]> (actionToResponseMap st) in
  rejectAction action value st =
    (Returned (),
     if RequestAction.optional action then
       if shouldRespondToClient recorded m
       then mkState (prevRequestUUID st) ∅ None (secureStorage st)
                    (effects st ++ [SendResponse recorded m])
       else mkState (prevRequestUUID st) recorded (Some m) (secureStorage st) (effects st)
     else mkState (prevRequestUUID st) recorded (Some m) (secureStorage st)
                  (effects st ++ [SendResponse recorded m])).
Proof.
  destruct st as [prev responses active stored calls]. cbn. intros ->.
  run. cbn. destruct (RequestAction.optional action); cbn; [|done].
  by destruct (shouldRespondToClient _ _).
Qed.

(** [approveHandshake] on an active message, in one equation: the store
    after the call, the storage calls made, and the response map, which
    is read and never written before the completeness test. *)
Lemma approveHandshake_run st m action metadata :
  activeMessage st = Some m →
  let session := createSession metadata action m in
  let existing :=
    List.find (λ value, bool_decide (Session.dappId value = AppMetadata.appId metadata))
              (secureStorage st) in
  let stored :=
    match existing with
    | Some e => filter (λ x, x ∉ [e]) (secureStorage st)
    | None => secureStorage st
    end ++ [session] in
  let calls :=
    effects st ++ [GetSessions]
      ++ match existing with Some e => [DeleteSessions [e]] | None => [] end
      ++ [AddSession session] in
  approveHandshake action metadata st =
    (Returned (),
     if shouldRespondToClient (actionToResponseMap st) m
     then mkState (prevRequestUUID st) ∅ None stored
                  (calls ++ [SendResponse (actionToResponseMap st) m])
     else mkState (prevRequestUUID st) (actionToResponseMap st) (Some m) stored calls).
Proof.
  destruct st as [prev responses active sessions made]. cbn. intros ->.
  run. cbn.
  destruct (List.find _ _) as [e|]; cbn;
    destruct (shouldRespondToClient _ _); cbn; by rewrite <- ?app_assoc.
Qed.

(** [approveHandshake] writes no entry: whatever [shouldRespondToClient]
    is, a key of the response map after the call was a key before it. *)
Lemma approveHandshake_never_records st action metadata id :
  is_Some (actionToResponseMap (after (approveHandshake action metadata st)) !! id) →
  is_Some (actionToResponseMap st !! id).
Proof.
  destruct (activeMessage st) as [m|] eqn:Hm.
  - rewrite (approveHandshake_run _ _ _ _ Hm). unfold after. cbn.
    destruct (shouldRespondToClient _ _); cbn; [|done].
    rewrite lookup_empty. by intros [? ?].
  - run. by rewrite Hm.
Qed.

(** C1: on an active message, rejecting an action that is not optional
    records the error and sends the response at once, whatever the other
    actions' outcomes are; the message stays active and the response map
    keeps its entries, so a later approval or rejection of any action
    returns normally instead of throwing. *)
Theorem rejectAction_mandatory_keeps_message st m action value :
  activeMessage st = Some m →
  RequestAction.optional action = false →
  let recorded := <[RequestAction.id action := error value]> (actionToResponseMap st) in
  let r := rejectAction action value st in
  outcome r = Returned () ∧
  effects (after r) = effects st ++ [SendResponse recorded m] ∧
  actionToResponseMap (after r) = recorded ∧
  activeMessage (after r) = Some m ∧
  ∀ other value',
    outcome (approveAction other value' (after r)) = Returned () ∧
    outcome (rejectAction other value' (after r)) = Returned ().
Proof.
  intros Hm Ho recorded r. subst r recorded.
  rewrite (rejectAction_run _ _ _ _ Hm), Ho. unfold outcome, after. cbn.
  split_and!; try done. intros other value'.
  rewrite (approveAction_run _ m), (rejectAction_run _ m) by done. done.
Qed.

(** *** Sessions of one application *)

Lemma find_dappId_Some (X : string) (l : list Session.t) e :
  List.find (λ value, bool_decide (Session.dappId value = X)) l = Some e →
  e ∈ l ∧ Session.dappId e = X.
Proof.
  intros Hf. apply find_some in Hf as [Hin Hx].
  split; [by apply list_elem_of_In|]. by apply bool_decide_eq_true in Hx.
Qed.

Lemma find_dappId_None (X : string) (l : list Session.t) :
  List.find (λ value, bool_decide (Session.dappId value = X)) l = None →
  filter (λ s, Session.dappId s = X) l = [].
Proof.
  intros Hf. apply elem_of_nil_inv. intros x [Hx Hin]%list_elem_of_filter.
  apply list_elem_of_In in Hin.
  apply (find_none _ _ Hf) in Hin. by apply bool_decide_eq_false in Hin.
Qed.

Lemma filter_the_one (X : string) (l : list Session.t) e :
  (length (filter (λ s, Session.dappId s = X) l) ≤ 1)%nat →
  e ∈ l → Session.dappId e = X →
  filter (λ s, Session.dappId s = X) l = [e].
Proof.
  intros Hlen Hin Hx.
  assert (He : e ∈ filter (λ s, Session.dappId s = X) l) by by apply list_elem_of_filter.
  destruct (filter _ l) as [|x [|y rest]]; cbn in Hlen.
  - by apply elem_of_nil in He.
  - apply list_elem_of_singleton in He. by subst.
  - lia.
Qed.

Lemma filter_without_the_one (X : string) (l : list Session.t) e :
  filter (λ s, Session.dappId s = X) l = [e] →
  filter (λ s, Session.dappId s = X) (filter (λ x, x ∉ [e]) l) = [].
Proof.
  intros Hone. apply elem_of_nil_inv.
  intros x [Hx [Hne Hin]%list_elem_of_filter]%list_elem_of_filter.
  apply Hne. rewrite <- Hone. by apply list_elem_of_filter.
Qed.

(** The sessions of [X] in the store after [approveHandshake] for [X]. *)
Lemma approveHandshake_sessions st m action metadata X :
  activeMessage st = Some m →
  AppMetadata.appId metadata = X →
  Session.dappId (createSession metadata action m) = X →
  (length (filter (λ s, Session.dappId s = X) (secureStorage st)) ≤ 1)%nat →
  filter (λ s, Session.dappId s = X)
         (secureStorage (after (approveHandshake action metadata st)))
  = [createSession metadata action m].
Proof.
  intros Hm Hmeta Hnew Hone.
  assert (Hstore : secureStorage (after (approveHandshake action metadata st)) =
                   match List.find (λ value, bool_decide (Session.dappId value = X))
                                   (secureStorage st) with
                   | Some e => filter (λ x, x ∉ [e]) (secureStorage st)
                   | None => secureStorage st
                   end ++ [createSession metadata action m]).
  { rewrite (approveHandshake_run _ _ _ _ Hm), Hmeta. unfold after. cbn.
    by destruct (shouldRespondToClient _ _). }
  rewrite Hstore, filter_app.
  rewrite (filter_cons_True _ (createSession metadata action m) []) by done.
  rewrite filter_nil.
  destruct (List.find _ _) as [e|] eqn:Hf.
  - apply find_dappId_Some in Hf as [Hin Hx].
    by rewrite (filter_without_the_one X _ e) by by apply filter_the_one.
  - by rewrite (find_dappId_None _ _ Hf).
Qed.

(** C6: when the store holds at most one session of the application [X]
    and [approveHandshake] is called for [X] on an active message, the
    store holds exactly one session of [X] afterwards, the one just
    created; a session of [X] that was there is deleted before the new one
    is added; and a second [approveHandshake] for [X], on whatever message
    is then active over the same store, again leaves exactly one session
    of [X], the one created by the second call. *)
Theorem approveHandshake_one_session st m action metadata X :
  activeMessage st = Some m →
  AppMetadata.appId metadata = X →
  Session.dappId (createSession metadata action m) = X →
  (length (filter (λ s, Session.dappId s = X) (secureStorage st)) ≤ 1)%nat →
  let st' := after (approveHandshake action metadata st) in
  filter (λ s, Session.dappId s = X) (secureStorage st') = [createSession metadata action m] ∧
  (∀ old, old ∈ secureStorage st → Session.dappId old = X →
     old ≠ createSession metadata action m → old ∉ secureStorage st') ∧
  (∀ old, old ∈ secureStorage st → Session.dappId old = X →
     ∃ rest, effects st' =
             effects st ++ [GetSessions; DeleteSessions [old];
                            AddSession (createSession metadata action m)] ++ rest) ∧
  (∀ st2 m2 action2 metadata2,
     secureStorage st2 = secureStorage st' →
     activeMessage st2 = Some m2 →
     AppMetadata.appId metadata2 = X →
     Session.dappId (createSession metadata2 action2 m2) = X →
     filter (λ s, Session.dappId s = X)
            (secureStorage (after (approveHandshake action2 metadata2 st2)))
     = [createSession metadata2 action2 m2]).
Proof.
  intros Hm Hmeta Hnew Hone st'.
  assert (Hafter : filter (λ s, Session.dappId s = X) (secureStorage st')
                   = [createSession metadata action m])
    by by apply approveHandshake_sessions.
  split_and!; [done| | |].
  - intros old Hin Hx Hne Hin'.
    assert (Ho : old ∈ filter (λ s, Session.dappId s = X) (secureStorage st'))
      by by apply list_elem_of_filter.
    rewrite Hafter in Ho. by apply list_elem_of_singleton in Ho.
  - intros old Hin Hx. subst st'.
    rewrite (approveHandshake_run _ _ _ _ Hm), Hmeta. unfold after. cbn.
    destruct (List.find _ _) as [e|] eqn:Hf.
    + apply find_dappId_Some in Hf as [Hine Hxe].
      assert (e = old) as ->.
      { pose proof (filter_the_one X _ e Hone Hine Hxe) as He.
        pose proof (filter_the_one X _ old Hone Hin Hx) as Ho. congruence. }
      destruct (shouldRespondToClient _ _); cbn.
      * exists [SendResponse (actionToResponseMap st) m]. by rewrite <- app_assoc.
      * by exists [].
    + apply find_dappId_None in Hf.
      assert (Ho : old ∈ filter (λ s, Session.dappId s = X) (secureStorage st))
        by by apply list_elem_of_filter.
      rewrite Hf in Ho. by apply elem_of_nil in Ho.
  - intros st2 m2 action2 metadata2 Hs2 Hm2 Hmeta2 Hnew2.
    apply approveHandshake_sessions; [done..|].
    by rewrite Hs2, Hafter.
Qed.

(** *** The marker after a failed intake *)

(** C10, as amended: the marker is set to the uuid of the request before
    the session is looked up and is not reset on failure; when an action
    request fails for lack of a session or for an expired session and a
    request with the same uuid is submitted next, with no other call of
    [handleRequestUrl] in between, the second call returns [false] and
    leaves the state as it was: nothing is sent, emitted or stored and
    the active message stays. *)
Theorem failed_request_resubmitted st url decoded url' decoded' :
  decodeRequest url = Some decoded →
  prevRequestUUID st ≠ Some (DecodedRequest.uuid decoded) →
  DecodedContent.handshake (DecodedRequest.content decoded) = None →
  is_Some (DecodedContent.request (DecodedRequest.content decoded)) →
  (lookupSession (secureStorage st) decoded = None ∨
   ∃ session, lookupSession (secureStorage st) decoded = Some session ∧
              isSessionValid session sessionExpiryDays = false) →
  decodeRequest url' = Some decoded' →
  DecodedRequest.uuid decoded' = DecodedRequest.uuid decoded →
  let r := handleRequestUrl url st in
  outcome r = Returned false ∧
  prevRequestUUID (after r) = Some (DecodedRequest.uuid decoded) ∧
  handleRequestUrl url' (after r) = (Returned false, after r).
Proof.
  intros Hd Hp Hh Hr Hs Hd' Hu r. subst r. split_and!.
  - destruct Hs as [Hs|(session & Hs & Hv)].
    + by rewrite (handleRequestUrl_no_session _ _ _ Hd Hp Hh Hr Hs).
    + by rewrite (handleRequestUrl_expired _ _ _ _ Hd Hp Hh Hr Hs Hv).
  - by apply handleRequestUrl_marker.
  - apply (handleRequestUrl_duplicate _ _ decoded'); [done|].
    rewrite Hu. by apply handleRequestUrl_marker.
Qed.

(** *** The response map and the active message *)

(** What a call does to the active message and the response map: nothing,
    or it clears the map, or it is an approval or rejection that adds one
    entry under the id of its action and keeps the message. *)
Lemma perform_message_and_map c st :
  (activeMessage (perform c st) = activeMessage st ∧
   actionToResponseMap (perform c st) = actionToResponseMap st) ∨
  actionToResponseMap (perform c st) = ∅ ∨
  (∃ m action value v,
      (c = ApproveAction action value ∨ c = RejectAction action value) ∧
      activeMessage st = Some m ∧
      activeMessage (perform c st) = Some m ∧
      actionToResponseMap (perform c st)
      = <[RequestAction.id action := v]> (actionToResponseMap st)).
Proof.
  destruct c as [url| | |action metadata|description|action value|action value];
    unfold perform.
  - run. destruct (decodeRequest url) as [decoded|]; [|by left].
    destruct (decide _); [by left|].
    destruct (DecodedContent.handshake _); [by right; left|].
    destruct (DecodedContent.request _); [|by left].
    cbn. destruct (lookupSession _ _) as [session|]; [|by left].
    destruct (isSessionValid _ _); cbn; [|by left].
    destruct (decryptRequest _ _); [by right; left|by left].
  - run. destruct (activeMessage st) as [m|] eqn:Hm; cbn; [|by left].
    by destruct (findHandshake _); left.
  - run. destruct (activeMessage st) as [m|] eqn:Hm; cbn; [|by left].
    by destruct (findHandshake _); left.
  - destruct (activeMessage st) as [m|] eqn:Hm.
    + rewrite (approveHandshake_run _ _ _ _ Hm). unfold after. cbn.
      destruct (shouldRespondToClient _ _); cbn; [by right; left|by left].
    + run. rewrite Hm. by left.
  - run. destruct (activeMessage st) eqn:Hm; [by right; left|by left].
  - destruct (activeMessage st) as [m|] eqn:Hm.
    + rewrite (approveAction_run _ _ _ _ Hm). unfold after. cbn.
      destruct (shouldRespondToClient _ _); cbn; [by right; left|].
      right; right. exists m, action, value, (result value). auto.
    + run. rewrite Hm. by left.
  - destruct (activeMessage st) as [m|] eqn:Hm.
    + rewrite (rejectAction_run _ _ _ _ Hm). unfold after. cbn.
      destruct (RequestAction.optional action);
        [destruct (shouldRespondToClient _ _); cbn; [by right; left|]|];
        right; right; exists m, action, value, (error value); auto.
    + run. rewrite Hm. by left.
Qed.

Lemma scoped_empty st : actionToResponseMap st = ∅ → scoped st.
Proof.
  intros He. unfold scoped. destruct (activeMessage st); [|done].
  intros id [v Hv]. by rewrite He, lookup_empty in Hv.
Qed.

Lemma perform_scoped c st : scoped st → addressed c st → scoped (perform c st).
Proof.
  intros Hs Ha.
  destruct (perform_message_and_map c st)
    as [[Hm Hr]|[He|(m & action & value & v & Hc & Hm & Hm' & Hr)]].
  - unfold scoped in *. by rewrite Hm, Hr.
  - by apply scoped_empty.
  - assert (Hin : Request action ∈ RequestMessage.actions m)
      by (destruct Hc as [-> | ->]; by apply Ha).
    unfold scoped in *. rewrite Hm', Hr. rewrite Hm in Hs.
    intros id [w Hw]. destruct (decide (RequestAction.id action = id)) as [<-|Hne].
    + by exists (Request action).
    + rewrite lookup_insert_ne in Hw by done. apply Hs. by exists w.
Qed.

(** C8, as amended: [updateActiveMessage] empties the response map
    whatever message it sets, and a call that changes the active message,
    to another message or to none, leaves the map empty; and as long as
    [approveAction] and [rejectAction] are called with actions of the
    message active at the time, in every state the provider reaches the
    keys of the response map are ids of actions of the active message
    (and the map is empty when no message is active), whatever calls are
    made. *)
Theorem response_map_scoped sessions st :
  reachable sessions st →
  scoped st ∧
  (∀ message,
     actionToResponseMap (after (updateActiveMessage message st)) = ∅ ∧
     activeMessage (after (updateActiveMessage message st)) = message) ∧
  ∀ c, (activeMessage (perform c st) ≠ activeMessage st →
        actionToResponseMap (perform c st) = ∅) ∧
       (addressed c st → scoped (perform c st)).
Proof.
  intros Hreach.
  assert (Hs : scoped st).
  { induction Hreach as [|st c _ IH Ha]; [done|]. by apply perform_scoped. }
  split; [done|]. split; [done|]. intros c. split; [|by apply perform_scoped].
  intros Hne.
  destruct (perform_message_and_map c st)
    as [[Hm _]|[He|(m & _ & _ & _ & _ & Hm & Hm' & _)]]; [done|done|].
  destruct Hne. by rewrite Hm, Hm'.
Qed.

(** *** The intake, path by path *)

#[local] Abbreviation perform_all :=
  (perform_all decodeRequest decryptRequest mapHandshakeToRequest mapDecryptedContentToRequest
               lookupSession isSessionValid createSession shouldRespondToClient
               fetchClientAppMetadata isClientAppVerified sessionExpiryDays).

(** X1: a decoded request that is not a repetition of the previous one and
    has the [handshake] key becomes the active message at once, whether or
    not it also has the [request] key: the call returns [true], the
    response map is emptied (outcomes recorded for a message that was
    active are dropped, nothing is sent for it), the store is neither read
    nor written and no event, error or response goes out. *)
Theorem handleRequestUrl_handshake st url decoded handshake :
  decodeRequest url = Some decoded →
  prevRequestUUID st ≠ Some (DecodedRequest.uuid decoded) →
  DecodedContent.handshake (DecodedRequest.content decoded) = Some handshake →
  handleRequestUrl url st =
    (Returned true,
     mkState (Some (DecodedRequest.uuid decoded)) ∅
             (Some (mapHandshakeToRequest handshake decoded))
             (secureStorage st) (effects st)).
Proof.
  intros Hd Hp Hh. run. rewrite Hd.
  destruct (decide _); [done|]. by rewrite Hh.
Qed.

(** X2: an action request that is not a repetition, whose session is found
    and valid and whose payload decrypts, becomes the active message: the
    call returns [true], the response map is emptied, the store is read
    once and not written, [decryptRequest] is called once with that
    session, and no event, error or response goes out. *)
Theorem handleRequestUrl_request st url decoded session decrypted :
  decodeRequest url = Some decoded →
  prevRequestUUID st ≠ Some (DecodedRequest.uuid decoded) →
  DecodedContent.handshake (DecodedRequest.content decoded) = None →
  is_Some (DecodedContent.request (DecodedRequest.content decoded)) →
  lookupSession (secureStorage st) decoded = Some session →
  isSessionValid session sessionExpiryDays = true →
  decryptRequest url session = Some decrypted →
  handleRequestUrl url st =
    (Returned true,
     mkState (Some (DecodedRequest.uuid decoded)) ∅
             (Some (mapDecryptedContentToRequest (DecryptedRequest.request decrypted) decoded))
             (secureStorage st)
             (effects st ++ [GetSession decoded; DecryptRequest url session])).
Proof.
  intros Hd Hp Hh [payload Hr] Hs Hv Hdec. run. rewrite Hd.
  destruct (decide _); [done|]. rewrite Hh, Hr. cbn. rewrite Hs, Hv. cbn.
  rewrite Hdec. cbn. by rewrite <- app_assoc.
Qed.

(** X3: when the session is found and valid but [decryptRequest] rejects,
    the call does not return: the active message, the response map and the
    store stay as they were and no error is sent to the client; the marker
    already holds the uuid, so the same request submitted next is dropped
    without a second decryption attempt. *)
Theorem handleRequestUrl_decrypt_rejected st url decoded session :
  decodeRequest url = Some decoded →
  prevRequestUUID st ≠ Some (DecodedRequest.uuid decoded) →
  DecodedContent.handshake (DecodedRequest.content decoded) = None →
  is_Some (DecodedContent.request (DecodedRequest.content decoded)) →
  lookupSession (secureStorage st) decoded = Some session →
  isSessionValid session sessionExpiryDays = true →
  decryptRequest url session = None →
  let r := handleRequestUrl url st in
  (∀ b, outcome r ≠ Returned b) ∧
  after r = mkState (Some (DecodedRequest.uuid decoded)) (actionToResponseMap st)
                    (activeMessage st) (secureStorage st)
                    (effects st ++ [GetSession decoded; DecryptRequest url session]) ∧
  handleRequestUrl url (after r) = (Returned false, after r).
Proof.
  intros Hd Hp Hh Hr Hs Hv Hdec r.
  assert (Hrun : r = (Threw "decryptRequest",
                      mkState (Some (DecodedRequest.uuid decoded)) (actionToResponseMap st)
                              (activeMessage st) (secureStorage st)
                              (effects st ++ [GetSession decoded; DecryptRequest url session]))).
  { subst r. destruct Hr as [payload Hr]. run. rewrite Hd.
    destruct (decide _); [done|]. rewrite Hh, Hr. cbn. rewrite Hs, Hv. cbn.
    rewrite Hdec. by rewrite <- app_assoc. }
  rewrite Hrun. unfold outcome, after. cbn. split_and!; [done|done|].
  by apply (handleRequestUrl_duplicate _ _ decoded).
Qed.

(** X4: a url that [decodeRequest] does not decode is refused with the
    state untouched, the marker included; a decoded request that is not a
    repetition and has neither the [handshake] nor the [request] key is
    refused too, with no call to any collaborator, but its uuid has become
    the marker. *)
Theorem handleRequestUrl_unclassified st url :
  (decodeRequest url = None → handleRequestUrl url st = (Returned false, st)) ∧
  (∀ decoded,
     decodeRequest url = Some decoded →
     prevRequestUUID st ≠ Some (DecodedRequest.uuid decoded) →
     DecodedContent.handshake (DecodedRequest.content decoded) = None →
     DecodedContent.request (DecodedRequest.content decoded) = None →
     handleRequestUrl url st =
       (Returned false,
        mkState (Some (DecodedRequest.uuid decoded)) (actionToResponseMap st)
                (activeMessage st) (secureStorage st) (effects st))).
Proof.
  split.
  - intros Hd. run. by rewrite Hd.
  - intros decoded Hd Hp Hh Hr. run. rewrite Hd.
    destruct (decide _); [done|]. by rewrite Hh, Hr.
Qed.

(** What a call of the intake leaves, in one of two shapes: a message
    installed over an empty map and the same store, or the message and the
    map as they were; the calls it makes are appended to the log and none of
    them is a [sendResponse]. *)
Lemma handleRequestUrl_shape st url :
  let r := handleRequestUrl url st in
  ∃ made,
    effects (after r) = effects st ++ made ∧
    Forall (λ e, is_delivery e = false ∨ ∃ d t, e = SendError d t) made ∧
    ((outcome r = Returned true ∧
      is_Some (activeMessage (after r)) ∧
      actionToResponseMap (after r) = ∅ ∧
      secureStorage (after r) = secureStorage st) ∨
     (outcome r ≠ Returned true ∧
      activeMessage (after r) = activeMessage st ∧
      actionToResponseMap (after r) = actionToResponseMap st)).
Proof.
  run. destruct (decodeRequest url) as [decoded|]; cbn.
  2: { exists []. rewrite app_nil_r. split_and!; [done|constructor|by right]. }
  destruct (decide _); cbn.
  { exists []. rewrite app_nil_r. split_and!; [done|constructor|by right]. }
  destruct (DecodedContent.handshake _); cbn.
  { exists []. rewrite app_nil_r. split_and!; [done|constructor|left; eauto]. }
  destruct (DecodedContent.request _); cbn.
  2: { exists []. rewrite app_nil_r. split_and!; [done|constructor|by right]. }
  destruct (lookupSession _ _) as [session|]; cbn.
  - destruct (isSessionValid _ _); cbn.
    + destruct (decryptRequest _ _); cbn.
      * eexists [_; _]. rewrite <- app_assoc.
        split_and!; [done|by repeat constructor|left; eauto].
      * eexists [_; _]. rewrite <- app_assoc.
        split_and!; [done|by repeat constructor|by right].
    + eexists [_; _; _; _]. rewrite <- !app_assoc.
      split_and!; [done| |by right].
      repeat (constructor; [by (left + (right; eauto))|]). constructor.
  - eexists [_; _; _]. rewrite <- !app_assoc.
    split_and!; [done| |by right].
    repeat (constructor; [by (left + (right; eauto))|]). constructor.
Qed.

(** X5: the result of [handleRequestUrl] tells whether a message was
    installed.  When it returns [true] a message is active, the response
    map is empty and the store is as it was; in every other case (it
    returns [false] or does not return) the active message and the response
    map are as they were.  In no case does the intake call
    [sendResponse]. *)
Theorem handleRequestUrl_result st url :
  let r := handleRequestUrl url st in
  (outcome r = Returned true →
   is_Some (activeMessage (after r)) ∧
   actionToResponseMap (after r) = ∅ ∧
   secureStorage (after r) = secureStorage st) ∧
  (outcome r ≠ Returned true →
   activeMessage (after r) = activeMessage st ∧
   actionToResponseMap (after r) = actionToResponseMap st) ∧
  (∀ responses m,
     SendResponse responses m ∈ effects (after r) →
     SendResponse responses m ∈ effects st).
Proof.
  intros r. subst r.
  pose proof (handleRequestUrl_shape st url) as Hshape. cbv zeta in Hshape.
  destruct Hshape as (made & Hlog & Hmade & [(Ho & Ha & Hr & Hs)|(Ho & Ha & Hr)]).
  - split_and!; [done|by intros []|].
    intros responses m. rewrite Hlog. intros [Hin|Hin]%elem_of_app; [done|].
    rewrite Forall_forall in Hmade.
    destruct (Hmade _ Hin) as [Hf|(d & t & Hf)]; discriminate.
  - split_and!; [by intros ?|done|].
    intros responses m. rewrite Hlog. intros [Hin|Hin]%elem_of_app; [done|].
    rewrite Forall_forall in Hmade.
    destruct (Hmade _ Hin) as [Hf|(d & t & Hf)]; discriminate.
Qed.

(** X6: the marker has one slot.  After a request with another uuid has
    been through the intake, a handshake request that was taken in before
    is taken in again: it is not recognised as a repetition and replaces
    the active message. *)
Theorem marker_is_single_slot st url1 url2 decoded1 decoded2 handshake :
  decodeRequest url1 = Some decoded1 →
  decodeRequest url2 = Some decoded2 →
  DecodedRequest.uuid decoded1 ≠ DecodedRequest.uuid decoded2 →
  DecodedContent.handshake (DecodedRequest.content decoded1) = Some handshake →
  let st2 := after (handleRequestUrl url2 (after (handleRequestUrl url1 st))) in
  prevRequestUUID st2 = Some (DecodedRequest.uuid decoded2) ∧
  handleRequestUrl url1 st2 =
    (Returned true,
     mkState (Some (DecodedRequest.uuid decoded1)) ∅
             (Some (mapHandshakeToRequest handshake decoded1))
             (secureStorage st2) (effects st2)).
Proof.
  intros Hd1 Hd2 Hne Hh st2.
  assert (Hp : prevRequestUUID st2 = Some (DecodedRequest.uuid decoded2))
    by by apply handleRequestUrl_marker.
  split; [done|].
  assert (Hfresh : prevRequestUUID st2 ≠ Some (DecodedRequest.uuid decoded1))
    by (rewrite Hp; congruence).
  clearbody st2. run. rewrite Hd1.
  destruct (decide _); [done|]. by rewrite Hh.
Qed.

(** *** Decisions on the active message *)

(** X7: [rejectHandshake] on an active message sends one error, with the
    given description, to that message, empties the response map and
    leaves no message active; no session is created or deleted, and an
    approval of the handshake that comes afterwards throws and stores
    nothing. *)
Theorem rejectHandshake_clears st m description :
  activeMessage st = Some m →
  let r := rejectHandshake description st in
  r = (Returned (),
       mkState (prevRequestUUID st) ∅ None (secureStorage st)
               (effects st ++ [SendError description (ToMessage m)])) ∧
  ∀ action metadata,
    approveHandshake action metadata (after r) = (Threw "No message found", after r).
Proof.
  intros Hm r.
  assert (Hr : r = (Returned (),
                    mkState (prevRequestUUID st) ∅ None (secureStorage st)
                            (effects st ++ [SendError description (ToMessage m)]))).
  { subst r. run. by rewrite Hm. }
  split; [done|]. intros action metadata. by rewrite Hr.
Qed.

(** X8: rejecting an optional action records the error and then does what
    an approval does: the response, with the error in it, is sent and the
    message cleared when [shouldRespondToClient] holds of the map with
    the new entry; otherwise the entry stays, the message stays active and
    nothing is sent. *)
Theorem rejectAction_optional st m action value :
  activeMessage st = Some m →
  RequestAction.optional action = true →
  let recorded := <[RequestAction.id action := error value]> (actionToResponseMap st) in
  let r := rejectAction action value st in
  outcome r = Returned () ∧
  (shouldRespondToClient recorded m = true →
   after r = mkState (prevRequestUUID st) ∅ None (secureStorage st)
                     (effects st ++ [SendResponse recorded m])) ∧
  (shouldRespondToClient recorded m = false →
   after r = mkState (prevRequestUUID st) recorded (Some m) (secureStorage st)
                     (effects st)).
Proof.
  intros Hm Ho recorded r. subst r recorded.
  rewrite (rejectAction_run _ _ _ _ Hm), Ho. unfold outcome, after. cbn.
  split_and!; [done|by intros ->|by intros ->].
Qed.

(** X9: as long as the response has not gone out, the last decision on an
    action is the one that counts: approving an action whose optional
    rejection or earlier approval is still in the map, or rejecting one
    whose approval is still in the map, gives the same result as the
    decision made alone. *)
Theorem last_decision_wins st m action value value0 reason :
  activeMessage st = Some m →
  RequestAction.optional action = true →
  shouldRespondToClient
    (<[RequestAction.id action := error reason]> (actionToResponseMap st)) m = false →
  shouldRespondToClient
    (<[RequestAction.id action := result value0]> (actionToResponseMap st)) m = false →
  approveAction action value (after (rejectAction action reason st))
  = approveAction action value st ∧
  approveAction action value (after (approveAction action value0 st))
  = approveAction action value st ∧
  rejectAction action reason (after (approveAction action value0 st))
  = rejectAction action reason st.
Proof.
  intros Hm Ho He Hv.
  rewrite (rejectAction_run _ _ _ reason Hm), (approveAction_run _ _ _ value0 Hm).
  rewrite Ho, He, Hv. unfold after. cbn.
  rewrite !(approveAction_run _ m), !(rejectAction_run _ m) by done. cbn.
  by rewrite !insert_insert_eq, Ho, He.
Qed.

(** X10: approvals of two actions with different ids can come in either
    order: when neither approval alone makes [shouldRespondToClient] hold,
    both orders end in the same state, with the same response sent or
    not. *)
Theorem approvals_commute st m a b va vb :
  activeMessage st = Some m →
  RequestAction.id a ≠ RequestAction.id b →
  shouldRespondToClient (<[RequestAction.id a := result va]> (actionToResponseMap st)) m
  = false →
  shouldRespondToClient (<[RequestAction.id b := result vb]> (actionToResponseMap st)) m
  = false →
  approveAction b vb (after (approveAction a va st))
  = approveAction a va (after (approveAction b vb st)).
Proof.
  intros Hm Hne Ha Hb.
  rewrite (approveAction_run _ _ a va Hm), (approveAction_run _ _ b vb Hm).
  rewrite Ha, Hb. unfold after. cbn.
  rewrite !(approveAction_run _ m) by done. cbn.
  by rewrite (insert_insert_ne _ (RequestAction.id b) (RequestAction.id a)) by done.
Qed.

(** X11: when [approveHandshake] does respond, the session has been added
    to the store before the response is sent, the response carries the
    response map as it stood before the call, and the call ends with no
    active message and an empty map. *)
Theorem approveHandshake_responds st m action metadata :
  activeMessage st = Some m →
  shouldRespondToClient (actionToResponseMap st) m = true →
  let session := createSession metadata action m in
  let r := approveHandshake action metadata st in
  outcome r = Returned () ∧
  (∃ before, effects (after r) =
             effects st ++ before
               ++ [AddSession session; SendResponse (actionToResponseMap st) m] ∧
             Forall (λ e, is_delivery e = false) before) ∧
  session ∈ secureStorage (after r) ∧
  activeMessage (after r) = None ∧
  actionToResponseMap (after r) = ∅.
Proof.
  intros Hm Hc session r. subst r session.
  rewrite (approveHandshake_run _ _ _ _ Hm), Hc. unfold outcome, after. cbn.
  split_and!; try done.
  - destruct (List.find _ _) as [e|].
    + exists [GetSessions; DeleteSessions [e]]. split.
      * by rewrite <- !app_assoc.
      * by repeat constructor.
    + exists [GetSessions]. split.
      * by rewrite <- !app_assoc.
      * by repeat constructor.
  - apply elem_of_app. right. by apply list_elem_of_singleton.
Qed.

(** X12: the sessions in the store after [approveHandshake] are the new
    session and every session that was there, except the first one whose
    [dappId] is the [appId] of the metadata (and its exact copies).  So a
    session of another application is kept, and so is a second, different
    session of the same application: the store is not made unique. *)
Theorem approveHandshake_store st m action metadata :
  activeMessage st = Some m →
  let existing :=
    List.find (λ value, bool_decide (Session.dappId value = AppMetadata.appId metadata))
              (secureStorage st) in
  let st' := after (approveHandshake action metadata st) in
  (∀ s, s ∈ secureStorage st' ↔
        (s ∈ secureStorage st ∧ existing ≠ Some s) ∨ s = createSession metadata action m) ∧
  (∀ s, s ∈ secureStorage st →
        Session.dappId s ≠ AppMetadata.appId metadata → s ∈ secureStorage st').
Proof.
  intros Hm existing st'.
  assert (Hiff : ∀ s, s ∈ secureStorage st' ↔
                      (s ∈ secureStorage st ∧ existing ≠ Some s)
                      ∨ s = createSession metadata action m).
  { intros s. subst st' existing.
    rewrite (approveHandshake_run _ _ _ _ Hm). unfold after. cbn.
    assert (Hstore : ∀ (b : bool) s1 s2 l (c1 c2 : list Effect) (r1 r2 : gmap Z ReturnValue)
                       (a1 a2 : option RequestMessage.t),
               secureStorage (if b then mkState s1 r1 a1 l c1 else mkState s2 r2 a2 l c2) = l)
      by (by intros []).
    rewrite Hstore, elem_of_app, list_elem_of_singleton.
    destruct (List.find _ _) as [e|].
    - rewrite list_elem_of_filter, list_elem_of_singleton. split.
      + intros [[Hne Hin]|Hnew]; [left|by right]. split; [done|congruence].
      + intros [[Hin Hne]|Hnew]; [left|by right]. split; [congruence|done].
    - split.
      + intros [Hin|Hnew]; [by left|by right].
      + intros [[Hin _]|Hnew]; [by left|by right]. }
  split; [done|].
  intros s Hin Hne. apply Hiff. left. split; [done|].
  intros Hf. apply find_dappId_Some in Hf as [_ Hx]. done.
Qed.

(** X13: the two queries look for the first handshake action of the active
    message, wherever it stands among the actions, and hand its [appId] and
    [callback] to the fetcher and to the verifier; they return what these
    return and leave the marker, the response map, the active message and
    the store as they were. *)
Theorem queries_use_first_handshake st m before h rest :
  activeMessage st = Some m →
  RequestMessage.actions m = (Request <$> before) ++ Handshake h :: rest →
  fetchAppMetadata st =
    (Returned (fetchClientAppMetadata (HandshakeAction.appId h) (HandshakeAction.callback h)),
     mkState (prevRequestUUID st) (actionToResponseMap st) (activeMessage st)
             (secureStorage st)
             (effects st ++ [FetchClientAppMetadata (HandshakeAction.appId h)
                                                    (HandshakeAction.callback h)])) ∧
  isAppVerified st =
    (Returned (isClientAppVerified (HandshakeAction.appId h) (HandshakeAction.callback h)),
     mkState (prevRequestUUID st) (actionToResponseMap st) (activeMessage st)
             (secureStorage st)
             (effects st ++ [IsClientAppVerified (HandshakeAction.appId h)
                                                 (HandshakeAction.callback h)])).
Proof.
  intros Hm Hactions.
  assert (Hfind : findHandshake (RequestMessage.actions m) = Some h).
  { rewrite Hactions. clear Hactions. by induction before as [|r before IH]. }
  destruct st as [prev responses active sessions made]. cbn in Hm. subst active.
  run. cbn. by rewrite Hfind.
Qed.

(** *** Runs of calls *)

Lemma perform_keeps_marker c st :
  is_intake c = false → prevRequestUUID (perform c st) = prevRequestUUID st.
Proof.
  destruct c as [url| | |action metadata|description|action value|action value];
    [discriminate|..]; intros _; unfold perform.
  - run. destruct (activeMessage st) as [m|]; cbn; [|done].
    by destruct (findHandshake _).
  - run. destruct (activeMessage st) as [m|]; cbn; [|done].
    by destruct (findHandshake _).
  - destruct (activeMessage st) as [m|] eqn:Hm.
    + rewrite (approveHandshake_run _ _ _ _ Hm). unfold after. cbn.
      by destruct (shouldRespondToClient _ _).
    + run. by rewrite Hm.
  - run. by destruct (activeMessage st).
  - destruct (activeMessage st) as [m|] eqn:Hm.
    + rewrite (approveAction_run _ _ _ _ Hm). unfold after. cbn.
      by destruct (shouldRespondToClient _ _).
    + run. by rewrite Hm.
  - destruct (activeMessage st) as [m|] eqn:Hm.
    + rewrite (rejectAction_run _ _ _ _ Hm). unfold after. cbn.
      destruct (RequestAction.optional action); [|done].
      by destruct (shouldRespondToClient _ _).
    + run. by rewrite Hm.
Qed.

(** X14: only the intake moves the marker.  After any run of approvals,
    rejections and queries, whether they return or throw, a request whose
    uuid is the marker is still dropped: a link delivered again after the
    user has acted on it is ignored. *)
Theorem marker_survives_decisions st calls url decoded :
  Forall (λ c, is_intake c = false) calls →
  decodeRequest url = Some decoded →
  prevRequestUUID st = Some (DecodedRequest.uuid decoded) →
  let st' := perform_all calls st in
  prevRequestUUID st' = prevRequestUUID st ∧
  handleRequestUrl url st' = (Returned false, st').
Proof.
  intros Hcalls Hd Hp st'.
  assert (Hkeep : prevRequestUUID st' = prevRequestUUID st).
  { subst st'. clear Hd Hp. revert st.
    induction Hcalls as [|c calls Hc _ IH]; intros st; [done|].
    change (prevRequestUUID (perform_all calls (perform c st)) = prevRequestUUID st).
    rewrite IH. by apply perform_keeps_marker. }
  split; [done|].
  apply (handleRequestUrl_duplicate _ _ decoded); [done|]. by rewrite Hkeep.
Qed.

(** X15: only the intake makes a message active: an approval, a rejection
    or a query leaves the active message as it is or leaves none. *)
Theorem only_intake_installs c st :
  is_intake c = false →
  activeMessage (perform c st) = activeMessage st ∨ activeMessage (perform c st) = None.
Proof.
  destruct c as [url| | |action metadata|description|action value|action value];
    [discriminate|..]; intros _; unfold perform.
  - left. run. destruct (activeMessage st) as [m|] eqn:Hm; cbn; [|done].
    by destruct (findHandshake _).
  - left. run. destruct (activeMessage st) as [m|] eqn:Hm; cbn; [|done].
    by destruct (findHandshake _).
  - destruct (activeMessage st) as [m|] eqn:Hm.
    + rewrite (approveHandshake_run _ _ _ _ Hm). unfold after. cbn.
      destruct (shouldRespondToClient _ _); [by right|by left].
    + left. run. by rewrite Hm.
  - run. destruct (activeMessage st) eqn:Hm; [by right|by left].
  - destruct (activeMessage st) as [m|] eqn:Hm.
    + rewrite (approveAction_run _ _ _ _ Hm). unfold after. cbn.
      destruct (shouldRespondToClient _ _); [by right|by left].
    + left. run. by rewrite Hm.
  - destruct (activeMessage st) as [m|] eqn:Hm.
    + rewrite (rejectAction_run _ _ _ _ Hm). unfold after. cbn.
      destruct (RequestAction.optional action); [|by left].
      destruct (shouldRespondToClient _ _); [by right|by left].
    + left. run. by rewrite Hm.
Qed.

(** X16: whatever calls are made from the first render, with whatever
    arguments, the response map is empty whenever no message is active: no
    outcome is ever recorded without an active message, and none outlives
    it. *)
Theorem no_message_no_outcomes sessions calls :
  let st := perform_all calls (initial sessions) in
  activeMessage st = None → actionToResponseMap st = ∅.
Proof.
  cbv zeta.
  assert (Hinv : ∀ st, (activeMessage st = None → actionToResponseMap st = ∅) →
                       activeMessage (perform_all calls st) = None →
                       actionToResponseMap (perform_all calls st) = ∅).
  { induction calls as [|c calls IH]; intros st Hst; [done|].
    change (activeMessage (perform_all calls (perform c st)) = None →
            actionToResponseMap (perform_all calls (perform c st)) = ∅).
    apply IH.
    destruct (perform_message_and_map c st)
      as [[Hm Hr]|[He|(m & _ & _ & _ & _ & _ & Hm' & _)]].
    - rewrite Hm, Hr. exact Hst.
    - done.
    - by rewrite Hm'. }
  by apply Hinv.
Qed.

(** X17: after the rejection of a mandatory action has sent the response,
    the message is still open to decisions: a later approval that makes
    [shouldRespondToClient] hold sends a second response for the same
    message, with both entries in it, and only then clears the message. *)
Theorem mandatory_rejection_then_approval st m a b reason value :
  activeMessage st = Some m →
  RequestAction.optional a = false →
  let first := <[RequestAction.id a := error reason]> (actionToResponseMap st) in
  let second := <[RequestAction.id b := result value]> first in
  shouldRespondToClient second m = true →
  let st2 := after (approveAction b value (after (rejectAction a reason st))) in
  effects st2 = effects st ++ [SendResponse first m; SendResponse second m] ∧
  activeMessage st2 = None ∧
  actionToResponseMap st2 = ∅.
Proof.
  intros Hm Ho first second Hc st2. subst st2.
  rewrite (rejectAction_run _ _ _ reason Hm), Ho. unfold after. cbn.
  rewrite (approveAction_run _ m) by done. cbn. fold first. fold second.
  rewrite Hc. cbn. by rewrite <- app_assoc.
Qed.

End Facts.

(** ** Completeness as full coverage *)

Lemma isComplete_covered (responses : gmap Z ReturnValue) (m : RequestMessage.t) :
  isComplete responses m = true ↔
  ∀ a, a ∈ RequestMessage.actions m → is_Some (responses !! action_id a).
Proof.
  unfold isComplete. rewrite forallb_forall. split.
  - intros Hall a Hin. apply list_elem_of_In, Hall in Hin.
    by apply bool_decide_eq_true in Hin.
  - intros Hall a Hin. apply bool_decide_eq_true, Hall. by apply list_elem_of_In.
Qed.

Section Completion.
Variable createSession : AppMetadata.t → HandshakeAction.t → RequestMessage.t → Session.t.

(** C7: on an active message, [approveAction] returns normally and puts
    the result under the id of its action; with completeness as full
    coverage, it then sends the response, with that entry in it, and clears
    the active message (and with it the map) exactly when every action
    of the message has an entry, result or error; otherwise the entry stays
    in the map, the message stays active and nothing is sent. *)
Theorem approveAction_complete_iff st m action value :
  activeMessage st = Some m →
  let recorded := <[RequestAction.id action := result value]> (actionToResponseMap st) in
  let covered :=
    ∀ a, a ∈ RequestMessage.actions m → is_Some (recorded !! action_id a) in
  let r := approveAction isComplete action value st in
  outcome r = Returned () ∧
  recorded !! RequestAction.id action = Some (result value) ∧
  (covered →
   after r = mkState (prevRequestUUID st) ∅ None (secureStorage st)
                     (effects st ++ [SendResponse recorded m])) ∧
  (¬ covered →
   after r = mkState (prevRequestUUID st) recorded (Some m) (secureStorage st)
                     (effects st)) ∧
  (effects (after r) = effects st ++ [SendResponse recorded m] ∧
   activeMessage (after r) = None ↔ covered).
Proof.
  intros Hm recorded covered r. subst r.
  rewrite (approveAction_run _ _ _ _ _ Hm). fold recorded.
  unfold outcome, after. cbn.
  pose proof (isComplete_covered recorded m) as Hc. fold covered in Hc.
  split_and!.
  - done.
  - subst recorded. by rewrite lookup_insert_eq.
  - intros Hcov. apply Hc in Hcov. by rewrite Hcov.
  - intros Hcov. destruct (isComplete recorded m); [|done].
    destruct Hcov. by apply Hc.
  - destruct (isComplete recorded m); cbn.
    + split; [intros _; by apply Hc|done].
    + split; [by intros [_ ?]|]. intros Hcov. by apply Hc in Hcov.
Qed.

(** C3: [approveHandshake] stores the session and returns normally, but it
    puts nothing in the response map; with completeness as full coverage,
    on a message that has the handshake action and a map without an entry
    for it (as after the intake), the message is not complete, so no
    response is sent, the active message stays and the map is as it
    was. *)
Theorem approveHandshake_records_nothing st m action metadata :
  activeMessage st = Some m →
  Handshake action ∈ RequestMessage.actions m →
  actionToResponseMap st !! HandshakeAction.id action = None →
  let r := approveHandshake createSession isComplete action metadata st in
  outcome r = Returned () ∧
  actionToResponseMap (after r) = actionToResponseMap st ∧
  activeMessage (after r) = Some m ∧
  (createSession metadata action m ∈ secureStorage (after r)) ∧
  (∀ e, e ∈ effects (after r) → is_delivery e = true → e ∈ effects st).
Proof.
  intros Hm Hin Hnone r. subst r.
  rewrite (approveHandshake_run _ _ _ _ _ _ Hm). unfold outcome, after. cbn.
  assert (Hc : isComplete (actionToResponseMap st) m = false).
  { destruct (isComplete _ m) eqn:Hc; [|done].
    pose proof (proj1 (isComplete_covered _ _) Hc _ Hin) as Hsome. cbn in Hsome.
    rewrite Hnone in Hsome. by destruct Hsome. }
  rewrite Hc. cbn. split_and!; try done.
  - apply elem_of_app. right. by apply list_elem_of_singleton.
  - intros e He Hd. apply elem_of_app in He as [He|He]; [done|].
    apply elem_of_cons in He as [->|He]; [done|].
    destruct (List.find _ _).
    + repeat (apply elem_of_cons in He as [->|He]; [done|]).
      by apply elem_of_nil in He.
    + repeat (apply elem_of_cons in He as [->|He]; [done|]).
      by apply elem_of_nil in He.
Qed.

End Completion.

(** ** The statements on the installation of [Scenario] *)

(** The handshake link tapped twice: the second intake is dropped. *)
Lemma handleRequestUrl_twice_witness :
  let st1 := after (Scenario.handleRequestUrl Scenario.handshakeUrl (initial [])) in
  activeMessage st1 = Some Scenario.handshakeMessage ∧
  Scenario.handleRequestUrl Scenario.handshakeUrl st1 = (Returned false, st1).
Proof.
  split; [reflexivity|].
  apply (handleRequestUrl_twice
           Scenario.decodeRequest Scenario.decryptRequest Scenario.mapHandshakeToRequest
           Scenario.mapDecryptedContentToRequest Scenario.lookupSession
           Scenario.isSessionValid Scenario.sessionExpiryDays
           (initial []) Scenario.handshakeUrl Scenario.handshakeUrl
           Scenario.decodedHandshake Scenario.decodedHandshake);
    reflexivity.
Defined.

(** A request before any handshake: one event, one error, no message. *)
Lemma handleRequestUrl_session_not_found_witness :
  let r := Scenario.handleRequestUrl Scenario.requestUrl (initial []) in
  outcome r = Returned false ∧
  effects (after r) =
    [GetSession Scenario.decodedRequest;
     EmitEvent "session_not_found" [("callbackUrl", Scenario.callbackUrl)];
     SendError "Session not found. Please initiate a handshake request prior to making a request"
               (ToDecoded Scenario.decodedRequest)] ∧
  activeMessage (after r) = None ∧
  actionToResponseMap (after r) = ∅ ∧
  secureStorage (after r) = [].
Proof.
  apply (handleRequestUrl_session_not_found
           Scenario.decodeRequest Scenario.decryptRequest Scenario.mapHandshakeToRequest
           Scenario.mapDecryptedContentToRequest Scenario.lookupSession
           Scenario.isSessionValid Scenario.sessionExpiryDays
           (initial []) Scenario.requestUrl Scenario.decodedRequest).
  - reflexivity.
  - discriminate.
  - reflexivity.
  - by exists "ciphertext"%string.
  - reflexivity.
Defined.

(** A request over a session that is nine days old, the window being seven
    days. *)
Lemma handleRequestUrl_session_expired_witness :
  let r := Scenario.handleRequestUrl Scenario.requestUrl (initial [Scenario.oldSession]) in
  outcome r = Returned false ∧
  effects (after r) =
    [GetSession Scenario.decodedRequest;
     EmitEvent "session_expired" [("appName", "Example"); ("appId", "app.example");
                                  ("callbackUrl", Scenario.callbackUrl)];
     DeleteSessions [Scenario.oldSession];
     SendError "Session expired. Please initiate another handshake request to connect."
               (ToDecoded Scenario.decodedRequest)] ∧
  secureStorage (after r) = [] ∧
  activeMessage (after r) = None.
Proof.
  destruct (handleRequestUrl_session_expired
              Scenario.decodeRequest Scenario.decryptRequest Scenario.mapHandshakeToRequest
              Scenario.mapDecryptedContentToRequest Scenario.lookupSession
              Scenario.isSessionValid Scenario.sessionExpiryDays
              (initial [Scenario.oldSession]) Scenario.requestUrl Scenario.decodedRequest
              Scenario.oldSession)
    as (Hout & Heff & _ & Hstore & _ & Hactive & _).
  - reflexivity.
  - discriminate.
  - reflexivity.
  - by exists "ciphertext"%string.
  - reflexivity.
  - reflexivity.
  - split; [exact Hout|]. split; [exact Heff|]. split; [|exact Hactive].
    etransitivity; [exact Hstore|]. reflexivity.
Defined.

(** Before any intake every approval and rejection throws; with a request
    message active the two handshake queries throw. *)
Lemma invalid_state_is_signalled_witness :
  (Scenario.approveHandshake Scenario.handshakeAction Scenario.metadata (initial [])
   = (Threw "No message found", initial []) ∧
   rejectHandshake "no" (initial []) = (Threw "No message found", initial []) ∧
   Scenario.approveAction Scenario.A "0x1" (initial []) = (Threw "No message found", initial []) ∧
   Scenario.rejectAction Scenario.A "no" (initial []) = (Threw "No message found", initial [])) ∧
  (let st := Scenario.awaiting Scenario.requestMessage [Scenario.freshSession] in
   fetchAppMetadata Scenario.fetchClientAppMetadata st = (Threw "No handshake action", st) ∧
   isAppVerified Scenario.isClientAppVerified st = (Threw "No handshake action", st)).
Proof.
  split.
  - destruct (proj1 (invalid_state_is_signalled
                       Scenario.createSession isComplete Scenario.fetchClientAppMetadata
                       Scenario.isClientAppVerified (initial [])) eq_refl)
      as (H1 & H2 & H3 & H4).
    split; [apply H1|]. split; [apply H2|]. split; [apply H3|apply H4].
  - apply (proj2 (invalid_state_is_signalled
                    Scenario.createSession isComplete Scenario.fetchClientAppMetadata
                    Scenario.isClientAppVerified
                    (Scenario.awaiting Scenario.requestMessage [Scenario.freshSession]))).
    reflexivity.
Defined.

(** Rejecting the mandatory action [A] of the request [A; B]: the response
    goes out with the error of [A] alone and the message stays; approving
    [B] afterwards succeeds and sends a second response for the same
    message. *)
Lemma rejectAction_mandatory_keeps_message_witness :
  let st := Scenario.awaiting Scenario.requestMessage [Scenario.freshSession] in
  let st1 := after (Scenario.rejectAction Scenario.A "denied" st) in
  let r2 := Scenario.approveAction Scenario.B "0x1" st1 in
  effects st1 = [SendResponse {[1 := error "denied"]} Scenario.requestMessage] ∧
  activeMessage st1 = Some Scenario.requestMessage ∧
  outcome r2 = Returned () ∧
  effects (after r2) =
    [SendResponse {[1 := error "denied"]} Scenario.requestMessage;
     SendResponse (<[2 := result "0x1"]> {[1 := error "denied"]}) Scenario.requestMessage].
Proof.
  destruct (rejectAction_mandatory_keeps_message
              isComplete (Scenario.awaiting Scenario.requestMessage [Scenario.freshSession])
              Scenario.requestMessage Scenario.A "denied" eq_refl eq_refl)
    as (_ & Heff & _ & Hactive & Hlater).
  split; [exact Heff|]. split; [exact Hactive|].
  split; [exact (proj1 (Hlater Scenario.B "0x1"%string))|].
  vm_compute. reflexivity.
Defined.

(** Approving the handshake over a store that holds the old session of the
    application: the old session is deleted, the new one is the only one. *)
Lemma approveHandshake_one_session_witness :
  let st := Scenario.awaiting Scenario.handshakeMessage [Scenario.oldSession] in
  let st' := after (Scenario.approveHandshake Scenario.handshakeAction Scenario.metadata st) in
  filter (λ s, Session.dappId s = "app.example"%string) (secureStorage st')
  = [Scenario.freshSession] ∧
  secureStorage st' = [Scenario.freshSession].
Proof.
  split; [|vm_compute; reflexivity].
  apply (approveHandshake_one_session
           Scenario.createSession isComplete
           (Scenario.awaiting Scenario.handshakeMessage [Scenario.oldSession])
           Scenario.handshakeMessage Scenario.handshakeAction Scenario.metadata
           "app.example"%string).
  - reflexivity.
  - reflexivity.
  - reflexivity.
  - vm_compute. lia.
Defined.

(** Approving [A] of the request [A; B] with nothing else recorded: the
    message is not complete. *)
Lemma approveAction_complete_iff_witness :
  let st := Scenario.awaiting Scenario.requestMessage [Scenario.freshSession] in
  let r := Scenario.approveAction Scenario.A "0x1" st in
  outcome r = Returned () ∧
  actionToResponseMap (after r) !! 1 = Some (result "0x1") ∧
  activeMessage (after r) = Some Scenario.requestMessage ∧
  effects (after r) = [].
Proof.
  destruct (approveAction_complete_iff
              (Scenario.awaiting Scenario.requestMessage [Scenario.freshSession])
              Scenario.requestMessage Scenario.A "0x1" eq_refl)
    as (Hout & Hrec & _ & Hkept & _).
  split; [exact Hout|].
  assert (Hst : after (Scenario.approveAction
                         Scenario.A "0x1"
                         (Scenario.awaiting Scenario.requestMessage [Scenario.freshSession]))
                = mkState (Some "uuid-request"%string) (<[1 := result "0x1"]> ∅)
                          (Some Scenario.requestMessage) [Scenario.freshSession] []).
  { apply Hkept. intros Hcov.
    destruct (Hcov (Request Scenario.B)) as [v Hv].
    - right. left.
    - vm_compute in Hv. discriminate Hv. }
  rewrite Hst. cbn. split; [exact Hrec|]. split; reflexivity.
Defined.

(** Approving the handshake of a handshake message just taken in: the
    session is stored, nothing is sent and the message stays active. *)
Lemma approveHandshake_records_nothing_witness :
  let st := after (Scenario.handleRequestUrl Scenario.handshakeUrl (initial [])) in
  let r := Scenario.approveHandshake Scenario.handshakeAction Scenario.metadata st in
  activeMessage st = Some Scenario.handshakeMessage ∧
  outcome r = Returned () ∧
  actionToResponseMap (after r) = ∅ ∧
  activeMessage (after r) = Some Scenario.handshakeMessage ∧
  effects (after r) = [GetSessions; AddSession Scenario.freshSession].
Proof.
  destruct (approveHandshake_records_nothing
              Scenario.createSession
              (after (Scenario.handleRequestUrl Scenario.handshakeUrl (initial [])))
              Scenario.handshakeMessage Scenario.handshakeAction Scenario.metadata)
    as (Hout & Hmap & Hactive & _ & _).
  - reflexivity.
  - left.
  - reflexivity.
  - split; [reflexivity|]. split; [exact Hout|]. split; [exact Hmap|].
    split; [exact Hactive|]. vm_compute. reflexivity.
Defined.

(** The request fails for lack of a session and is submitted again at
    once. *)
Lemma failed_request_resubmitted_witness :
  let r := Scenario.handleRequestUrl Scenario.requestUrl (initial []) in
  outcome r = Returned false ∧
  prevRequestUUID (after r) = Some "uuid-request"%string ∧
  Scenario.handleRequestUrl Scenario.requestUrl (after r) = (Returned false, after r).
Proof.
  apply (failed_request_resubmitted
           Scenario.decodeRequest Scenario.decryptRequest Scenario.mapHandshakeToRequest
           Scenario.mapDecryptedContentToRequest Scenario.lookupSession
           Scenario.isSessionValid Scenario.sessionExpiryDays
           (initial []) Scenario.requestUrl Scenario.decodedRequest
           Scenario.requestUrl Scenario.decodedRequest).
  - reflexivity.
  - discriminate.
  - reflexivity.
  - by exists "ciphertext"%string.
  - left. reflexivity.
  - reflexivity.
  - reflexivity.
Defined.

(** C10, the claim as stated fails: the request fails for lack of a session,
    the client performs the handshake, which is taken in and approved, and
    submits the same request again; the marker then holds the uuid of the
    handshake, so the request is taken in, decrypted and becomes the active
    message. *)
Lemma retry_after_handshake_is_processed :
  let r1 := Scenario.handleRequestUrl Scenario.requestUrl (initial []) in
  let r2 := Scenario.handleRequestUrl Scenario.handshakeUrl (after r1) in
  let r3 := Scenario.approveHandshake Scenario.handshakeAction Scenario.metadata (after r2) in
  let r4 := Scenario.handleRequestUrl Scenario.requestUrl (after r3) in
  outcome r1 = Returned false ∧
  effects (after r1) =
    [GetSession Scenario.decodedRequest;
     EmitEvent "session_not_found" [("callbackUrl", Scenario.callbackUrl)];
     SendError "Session not found. Please initiate a handshake request prior to making a request"
               (ToDecoded Scenario.decodedRequest)] ∧
  outcome r2 = Returned true ∧
  prevRequestUUID (after r3) = Some "uuid-handshake"%string ∧
  outcome r4 = Returned true ∧
  r4 ≠ (Returned false, after r3) ∧
  activeMessage (after r4) = Some Scenario.requestMessage ∧
  DecryptRequest Scenario.requestUrl Scenario.freshSession ∈ effects (after r4).
Proof.
  cbv zeta. split_and!; try (vm_compute; reflexivity).
  - vm_compute. discriminate.
  - vm_compute. do 6 right. left.
Defined.

(** C8, the claim as stated fails: the second request (action [C], id 7) is
    taken in, then the request [A; B] (ids 1 and 2) replaces it, then the
    application approves [C]; the response map then holds an entry under
    7 while no action of the active message has that id. *)
Lemma stale_action_enters_response_map :
  let st := Scenario.perform_all
              [HandleRequestUrl Scenario.secondRequestUrl;
               HandleRequestUrl Scenario.requestUrl;
               ApproveAction Scenario.C "0xsig"]
              (initial [Scenario.freshSession]) in
  activeMessage st = Some Scenario.requestMessage ∧
  actionToResponseMap st !! 7 = Some (result "0xsig") ∧
  (∀ a, a ∈ RequestMessage.actions Scenario.requestMessage → action_id a ≠ 7) ∧
  ¬ scoped st.
Proof.
  cbv zeta.
  assert (Hids : ∀ a, a ∈ RequestMessage.actions Scenario.requestMessage → action_id a ≠ 7).
  { intros a Hin. cbn in Hin.
    repeat (apply elem_of_cons in Hin as [->|Hin]; [discriminate|]).
    by apply elem_of_nil in Hin. }
  split; [vm_compute; reflexivity|]. split; [vm_compute; reflexivity|].
  split; [exact Hids|].
  unfold scoped.
  change (activeMessage _) with (Some Scenario.requestMessage).
  intros Hs. destruct (Hs 7) as (a & Hin & Hid).
  - exists (result "0xsig"). vm_compute. reflexivity.
  - by apply (Hids a).
Defined.

(** A run in which every approval and rejection is addressed to the active
    message. *)
Lemma response_map_scoped_witness :
  let st := Scenario.perform_all
              [HandleRequestUrl Scenario.requestUrl; ApproveAction Scenario.A "0x1"]
              (initial [Scenario.freshSession]) in
  scoped st ∧ scoped (Scenario.perform (RejectAction Scenario.B "denied") st).
Proof.
  cbv zeta.
  destruct (response_map_scoped
              Scenario.decodeRequest Scenario.decryptRequest Scenario.mapHandshakeToRequest
              Scenario.mapDecryptedContentToRequest Scenario.lookupSession
              Scenario.isSessionValid Scenario.createSession isComplete
              Scenario.fetchClientAppMetadata Scenario.isClientAppVerified
              Scenario.sessionExpiryDays [Scenario.freshSession]
              (Scenario.perform_all
                 [HandleRequestUrl Scenario.requestUrl; ApproveAction Scenario.A "0x1"]
                 (initial [Scenario.freshSession]))) as (Hs & _ & Hnext).
  - apply (reachable_perform _ _ _ _ _ _ _ _ _ _ _ _ _ (ApproveAction Scenario.A "0x1")).
    + apply (reachable_perform _ _ _ _ _ _ _ _ _ _ _ _ _
                               (HandleRequestUrl Scenario.requestUrl)).
      * apply reachable_initial.
      * exact I.
    + intros m Hm. vm_compute in Hm. injection Hm as <-. left.
  - split; [exact Hs|].
    apply (Hnext (RejectAction Scenario.B "denied")).
    intros m Hm. vm_compute in Hm. injection Hm as <-. right. left.
Defined.

(** ** Further statements on the installation of [Scenario] *)

(** The handshake link on a fresh provider. *)
Lemma handleRequestUrl_handshake_witness :
  Scenario.handleRequestUrl Scenario.handshakeUrl (initial [])
  = (Returned true,
     mkState (Some "uuid-handshake"%string) ∅ (Some Scenario.handshakeMessage) [] []).
Proof.
  apply (handleRequestUrl_handshake
           Scenario.decodeRequest Scenario.decryptRequest Scenario.mapHandshakeToRequest
           Scenario.mapDecryptedContentToRequest Scenario.lookupSession
           Scenario.isSessionValid Scenario.sessionExpiryDays
           (initial []) Scenario.handshakeUrl Scenario.decodedHandshake Scenario.handshake).
  - reflexivity.
  - discriminate.
  - reflexivity.
Defined.

(** The request link over today's session. *)
Lemma handleRequestUrl_request_witness :
  Scenario.handleRequestUrl Scenario.requestUrl (initial [Scenario.freshSession])
  = (Returned true,
     mkState (Some "uuid-request"%string) ∅ (Some Scenario.requestMessage)
             [Scenario.freshSession]
             [GetSession Scenario.decodedRequest;
              DecryptRequest Scenario.requestUrl Scenario.freshSession]).
Proof.
  apply (handleRequestUrl_request
           Scenario.decodeRequest Scenario.decryptRequest Scenario.mapHandshakeToRequest
           Scenario.mapDecryptedContentToRequest Scenario.lookupSession
           Scenario.isSessionValid Scenario.sessionExpiryDays
           (initial [Scenario.freshSession]) Scenario.requestUrl Scenario.decodedRequest
           Scenario.freshSession (DecryptedRequest.mk [Scenario.A; Scenario.B])).
  - reflexivity.
  - discriminate.
  - reflexivity.
  - by exists "ciphertext"%string.
  - reflexivity.
  - reflexivity.
  - reflexivity.
Defined.

(** The request link over today's session, with a codec that rejects every
    payload. *)
Lemma handleRequestUrl_decrypt_rejected_witness :
  let r := handleRequestUrl
             Scenario.decodeRequest (λ _ _, None) Scenario.mapHandshakeToRequest
             Scenario.mapDecryptedContentToRequest Scenario.lookupSession
             Scenario.isSessionValid Scenario.sessionExpiryDays
             Scenario.requestUrl (initial [Scenario.freshSession]) in
  (∀ b, outcome r ≠ Returned b) ∧
  after r = mkState (Some "uuid-request"%string) ∅ None [Scenario.freshSession]
                    [GetSession Scenario.decodedRequest;
                     DecryptRequest Scenario.requestUrl Scenario.freshSession] ∧
  handleRequestUrl
    Scenario.decodeRequest (λ _ _, None) Scenario.mapHandshakeToRequest
    Scenario.mapDecryptedContentToRequest Scenario.lookupSession
    Scenario.isSessionValid Scenario.sessionExpiryDays
    Scenario.requestUrl (after r) = (Returned false, after r).
Proof.
  apply (handleRequestUrl_decrypt_rejected
           Scenario.decodeRequest (λ _ _, None) Scenario.mapHandshakeToRequest
           Scenario.mapDecryptedContentToRequest Scenario.lookupSession
           Scenario.isSessionValid Scenario.sessionExpiryDays
           (initial [Scenario.freshSession]) Scenario.requestUrl Scenario.decodedRequest
           Scenario.freshSession).
  - reflexivity.
  - discriminate.
  - reflexivity.
  - by exists "ciphertext"%string.
  - reflexivity.
  - reflexivity.
  - reflexivity.
Defined.

(** A link that does not decode, and a decoded request with an empty
    content. *)
Lemma handleRequestUrl_unclassified_witness :
  Scenario.handleRequestUrl "mwp://garbage" (initial []) = (Returned false, initial []) ∧
  handleRequestUrl
    (λ _, Some (DecodedRequest.mk "uuid-empty" Scenario.callbackUrl
                                  (DecodedContent.mk None None)))
    Scenario.decryptRequest Scenario.mapHandshakeToRequest
    Scenario.mapDecryptedContentToRequest Scenario.lookupSession
    Scenario.isSessionValid Scenario.sessionExpiryDays
    "mwp://empty" (initial [])
  = (Returned false, mkState (Some "uuid-empty"%string) ∅ None [] []).
Proof.
  split.
  - apply (proj1 (handleRequestUrl_unclassified
                    Scenario.decodeRequest Scenario.decryptRequest
                    Scenario.mapHandshakeToRequest Scenario.mapDecryptedContentToRequest
                    Scenario.lookupSession Scenario.isSessionValid
                    Scenario.sessionExpiryDays (initial []) "mwp://garbage")).
    reflexivity.
  - apply (proj2 (handleRequestUrl_unclassified
                    (λ _, Some (DecodedRequest.mk "uuid-empty" Scenario.callbackUrl
                                                  (DecodedContent.mk None None)))
                    Scenario.decryptRequest
                    Scenario.mapHandshakeToRequest Scenario.mapDecryptedContentToRequest
                    Scenario.lookupSession Scenario.isSessionValid
                    Scenario.sessionExpiryDays (initial []) "mwp://empty")
                 (DecodedRequest.mk "uuid-empty" Scenario.callbackUrl
                                    (DecodedContent.mk None None))).
    + reflexivity.
    + discriminate.
    + reflexivity.
    + reflexivity.
Defined.

(** The handshake link returns [true] and installs a message; the request
    link without a session returns [false] and installs none. *)
Lemma handleRequestUrl_result_witness :
  is_Some (activeMessage (after (Scenario.handleRequestUrl Scenario.handshakeUrl (initial [])))) ∧
  activeMessage (after (Scenario.handleRequestUrl Scenario.requestUrl (initial []))) = None.
Proof.
  split.
  - apply (proj1 (handleRequestUrl_result
                    Scenario.decodeRequest Scenario.decryptRequest
                    Scenario.mapHandshakeToRequest Scenario.mapDecryptedContentToRequest
                    Scenario.lookupSession Scenario.isSessionValid
                    Scenario.sessionExpiryDays (initial []) Scenario.handshakeUrl)).
    reflexivity.
  - apply (proj1 (proj2 (handleRequestUrl_result
                           Scenario.decodeRequest Scenario.decryptRequest
                           Scenario.mapHandshakeToRequest
                           Scenario.mapDecryptedContentToRequest
                           Scenario.lookupSession Scenario.isSessionValid
                           Scenario.sessionExpiryDays (initial []) Scenario.requestUrl))).
    vm_compute. discriminate.
Defined.

(** Handshake link, request link, handshake link again. *)
Lemma marker_is_single_slot_witness :
  let st2 := after (Scenario.handleRequestUrl
                      Scenario.requestUrl
                      (after (Scenario.handleRequestUrl Scenario.handshakeUrl (initial [])))) in
  prevRequestUUID st2 = Some "uuid-request"%string ∧
  outcome (Scenario.handleRequestUrl Scenario.handshakeUrl st2) = Returned true.
Proof.
  destruct (marker_is_single_slot
              Scenario.decodeRequest Scenario.decryptRequest Scenario.mapHandshakeToRequest
              Scenario.mapDecryptedContentToRequest Scenario.lookupSession
              Scenario.isSessionValid Scenario.sessionExpiryDays
              (initial []) Scenario.handshakeUrl Scenario.requestUrl
              Scenario.decodedHandshake Scenario.decodedRequest Scenario.handshake)
    as [Hp Hr].
  - reflexivity.
  - reflexivity.
  - discriminate.
  - reflexivity.
  - split; [exact Hp|]. cbv zeta. unfold Scenario.handleRequestUrl.
    rewrite Hr. reflexivity.
Defined.

(** The user declines the handshake. *)
Lemma rejectHandshake_clears_witness :
  let st := Scenario.awaiting Scenario.handshakeMessage [] in
  rejectHandshake "declined" st
  = (Returned (),
     mkState (Some "uuid-handshake"%string) ∅ None []
             [SendError "declined" (ToMessage Scenario.handshakeMessage)]).
Proof.
  apply (proj1 (rejectHandshake_clears
                  Scenario.createSession isComplete
                  (Scenario.awaiting Scenario.handshakeMessage [])
                  Scenario.handshakeMessage "declined" eq_refl)).
Defined.

(** The optional action [B] rejected while [A] is undecided. *)
Lemma rejectAction_optional_witness :
  let st := Scenario.awaiting Scenario.requestMessage [Scenario.freshSession] in
  after (Scenario.rejectAction Scenario.B "denied" st)
  = mkState (Some "uuid-request"%string) {[2 := error "denied"]}
            (Some Scenario.requestMessage) [Scenario.freshSession] [].
Proof.
  apply (proj2 (proj2 (rejectAction_optional
                         isComplete
                         (Scenario.awaiting Scenario.requestMessage [Scenario.freshSession])
                         Scenario.requestMessage Scenario.B "denied" eq_refl eq_refl))).
  reflexivity.
Defined.

(** [B] rejected, then approved. *)
Lemma last_decision_wins_witness :
  let st := Scenario.awaiting Scenario.requestMessage [Scenario.freshSession] in
  Scenario.approveAction Scenario.B "0x2" (after (Scenario.rejectAction Scenario.B "denied" st))
  = Scenario.approveAction Scenario.B "0x2" st.
Proof.
  apply (proj1 (last_decision_wins
                  isComplete
                  (Scenario.awaiting Scenario.requestMessage [Scenario.freshSession])
                  Scenario.requestMessage Scenario.B "0x2" "0x0" "denied"
                  eq_refl eq_refl eq_refl eq_refl)).
Defined.

(** [A] then [B], and [B] then [A]. *)
Lemma approvals_commute_witness :
  let st := Scenario.awaiting Scenario.requestMessage [Scenario.freshSession] in
  Scenario.approveAction Scenario.B "0x2" (after (Scenario.approveAction Scenario.A "0x1" st))
  = Scenario.approveAction Scenario.A "0x1" (after (Scenario.approveAction Scenario.B "0x2" st)).
Proof.
  apply (approvals_commute
           isComplete (Scenario.awaiting Scenario.requestMessage [Scenario.freshSession])
           Scenario.requestMessage Scenario.A Scenario.B "0x1" "0x2").
  - reflexivity.
  - discriminate.
  - reflexivity.
  - reflexivity.
Defined.

(** A wallet that answers every approved handshake at once. *)
Lemma approveHandshake_responds_witness :
  let st := Scenario.awaiting Scenario.handshakeMessage [Scenario.oldSession] in
  let r := approveHandshake Scenario.createSession (λ _ _, true)
                            Scenario.handshakeAction Scenario.metadata st in
  outcome r = Returned () ∧
  Scenario.freshSession ∈ secureStorage (after r) ∧
  activeMessage (after r) = None ∧
  actionToResponseMap (after r) = ∅.
Proof.
  destruct (approveHandshake_responds
              Scenario.createSession (λ _ _, true)
              (Scenario.awaiting Scenario.handshakeMessage [Scenario.oldSession])
              Scenario.handshakeMessage Scenario.handshakeAction Scenario.metadata
              eq_refl eq_refl)
    as (Ho & _ & Hin & Ha & Hr).
  split; [exact Ho|]. split; [exact Hin|]. split; [exact Ha|exact Hr].
Defined.

(** A store with the old session of the application, a second session of
    it and a session of another application. *)
Lemma approveHandshake_store_witness :
  let second := Session.mk "app.example" "Example" Scenario.callbackUrl 0 "older-secret" in
  let other := Session.mk "other.example" "Other" "https://other.example/cb" 0 "secret" in
  let st := Scenario.awaiting Scenario.handshakeMessage [Scenario.oldSession; second; other] in
  let st' := after (Scenario.approveHandshake Scenario.handshakeAction Scenario.metadata st) in
  other ∈ secureStorage st' ∧
  secureStorage st' = [second; other; Scenario.freshSession].
Proof.
  cbv zeta. split; [|vm_compute; reflexivity].
  apply (proj2 (approveHandshake_store
                  Scenario.createSession isComplete
                  (Scenario.awaiting
                     Scenario.handshakeMessage
                     [Scenario.oldSession;
                      Session.mk "app.example" "Example" Scenario.callbackUrl 0 "older-secret";
                      Session.mk "other.example" "Other" "https://other.example/cb" 0 "secret"])
                  Scenario.handshakeMessage Scenario.handshakeAction Scenario.metadata
                  eq_refl)).
  - right. right. left.
  - discriminate.
Defined.

(** A message whose handshake action comes after a request action. *)
Lemma queries_use_first_handshake_witness :
  let m := RequestMessage.mk "uuid-mixed" Scenario.callbackUrl
                             [Request Scenario.A; Handshake Scenario.handshakeAction] in
  let st := Scenario.awaiting m [] in
  outcome (fetchAppMetadata Scenario.fetchClientAppMetadata st)
  = Returned (Some Scenario.metadata) ∧
  outcome (isAppVerified Scenario.isClientAppVerified st) = Returned true.
Proof.
  cbv zeta.
  destruct (queries_use_first_handshake
              Scenario.fetchClientAppMetadata Scenario.isClientAppVerified
              (Scenario.awaiting
                 (RequestMessage.mk "uuid-mixed" Scenario.callbackUrl
                                    [Request Scenario.A; Handshake Scenario.handshakeAction])
                 [])
              (RequestMessage.mk "uuid-mixed" Scenario.callbackUrl
                                 [Request Scenario.A; Handshake Scenario.handshakeAction])
              [Scenario.A] Scenario.handshakeAction [] eq_refl eq_refl)
    as [Hf Hv].
  split; [by rewrite Hf|by rewrite Hv].
Defined.

(** The request link delivered again after the user has decided on both
    actions and looked at nothing else. *)
Lemma marker_survives_decisions_witness :
  let st := after (Scenario.handleRequestUrl Scenario.requestUrl
                                             (initial [Scenario.freshSession])) in
  let st' := Scenario.perform_all
               [ApproveAction Scenario.A "0x1"; RejectAction Scenario.B "denied";
                FetchAppMetadata] st in
  prevRequestUUID st' = Some "uuid-request"%string ∧
  Scenario.handleRequestUrl Scenario.requestUrl st' = (Returned false, st').
Proof.
  apply (marker_survives_decisions
           Scenario.decodeRequest Scenario.decryptRequest Scenario.mapHandshakeToRequest
           Scenario.mapDecryptedContentToRequest Scenario.lookupSession
           Scenario.isSessionValid Scenario.createSession isComplete
           Scenario.fetchClientAppMetadata Scenario.isClientAppVerified
           Scenario.sessionExpiryDays
           (after (Scenario.handleRequestUrl Scenario.requestUrl
                                             (initial [Scenario.freshSession])))
           [ApproveAction Scenario.A "0x1"; RejectAction Scenario.B "denied";
            FetchAppMetadata]
           Scenario.requestUrl Scenario.decodedRequest).
  - repeat constructor.
  - reflexivity.
  - reflexivity.
Defined.

(** An approval that completes the message leaves none active. *)
Lemma only_intake_installs_witness :
  let st := Scenario.awaiting Scenario.requestMessage [Scenario.freshSession] in
  activeMessage (Scenario.perform (RejectHandshake "declined") st) = activeMessage st ∨
  activeMessage (Scenario.perform (RejectHandshake "declined") st) = None.
Proof.
  apply (only_intake_installs
           Scenario.decodeRequest Scenario.decryptRequest Scenario.mapHandshakeToRequest
           Scenario.mapDecryptedContentToRequest Scenario.lookupSession
           Scenario.isSessionValid Scenario.createSession isComplete
           Scenario.fetchClientAppMetadata Scenario.isClientAppVerified
           Scenario.sessionExpiryDays (RejectHandshake "declined")).
  reflexivity.
Defined.

(** The handshake taken in and declined. *)
Lemma no_message_no_outcomes_witness :
  actionToResponseMap
    (Scenario.perform_all [HandleRequestUrl Scenario.handshakeUrl; RejectHandshake "declined"]
                          (initial []))
  = ∅.
Proof.
  apply (no_message_no_outcomes
           Scenario.decodeRequest Scenario.decryptRequest Scenario.mapHandshakeToRequest
           Scenario.mapDecryptedContentToRequest Scenario.lookupSession
           Scenario.isSessionValid Scenario.createSession isComplete
           Scenario.fetchClientAppMetadata Scenario.isClientAppVerified
           Scenario.sessionExpiryDays []
           [HandleRequestUrl Scenario.handshakeUrl; RejectHandshake "declined"]).
  reflexivity.
Defined.

(** [A] rejected, then [B] approved: two responses for one message. *)
Lemma mandatory_rejection_then_approval_witness :
  let st := Scenario.awaiting Scenario.requestMessage [Scenario.freshSession] in
  let st2 := after (Scenario.approveAction
                      Scenario.B "0x2" (after (Scenario.rejectAction Scenario.A "denied" st))) in
  effects st2 =
    [SendResponse {[1 := error "denied"]} Scenario.requestMessage;
     SendResponse (<[2 := result "0x2"]> {[1 := error "denied"]}) Scenario.requestMessage] ∧
  activeMessage st2 = None ∧
  actionToResponseMap st2 = ∅.
Proof.
  apply (mandatory_rejection_then_approval
           isComplete (Scenario.awaiting Scenario.requestMessage [Scenario.freshSession])
           Scenario.requestMessage Scenario.A Scenario.B "denied" "0x2").
  - reflexivity.
  - reflexivity.
  - reflexivity.
Defined.
